(** * dtchess: configuration loading, model factory, data pipeline and
      training loop

    A shallow embedding of the Python sources of the [dtchess] package:
    - [dtchess/utils/config.py]  ([TrainingConfig], [config_from_file]);
    - [dtchess/models/gpt.py]    ([create_model]);
    - [dtchess/utils/utils.py]   ([extract_tag], [count_parameters],
                                  [preprocess_data]);
    - [dtchess/utils/train_light.py] ([prep]);
    - [dtchess/train.py]         ([train]).

    Python strings are sequences of Unicode code points, Python dictionaries
    and instance attribute tables are finite maps, exceptions are an explicit
    error result.  The interpreter's builtins ([int], [float], [format]) and
    the third-party libraries (tokenizer, XML parser, tensors) are not part of
    the package: they enter as parameters, or as small models of the part of
    their interface that the package calls. *)

From Stdlib Require Import ZArith NArith List Lia Ascii String.
From Stdlib Require Import Floats.PrimFloat Numbers.Cyclic.Int63.Uint63.
From stdpp Require Import base option list gmap strings.

Local Open Scope Z_scope.

(* Decimal float literals denote the nearest binary64 value, as in Python. *)
#[global] Set Warnings "-inexact-float,-register-all".

(* ===================================================================== *)
(** ** Python strings *)
(* ===================================================================== *)

(** A [str] is a list of code points. *)
Abbreviation pystr := (list N).

(** The code points of a literal written in the sources (ASCII only). *)
Definition py (s : string) : pystr :=
  List.map N_of_ascii (list_ascii_of_string s).

(** The newline character, ["\n"]. *)
Definition NL : N := 10%N.
(** The colon. *)
Definition COLON : N := 58%N.

(** [str.isspace] on one code point: the characters removed by a bare
    [str.strip()]. *)
Definition is_space (c : N) : bool :=
  ((9 <=? c) && (c <=? 13) || (28 <=? c) && (c <=? 32)
   || (c =? 133) || (c =? 160) || (c =? 5760)
   || (8192 <=? c) && (c <=? 8202)
   || (c =? 8232) || (c =? 8233) || (c =? 8239) || (c =? 8287)
   || (c =? 12288))%N.

Fixpoint drop_while (p : N -> bool) (s : pystr) : pystr :=
  match s with
  | [] => []
  | c :: s' => if p c then drop_while p s' else s
  end.

(** [s.lstrip(..)], [s.rstrip(..)], [s.strip(..)] for a set of characters
    given as a predicate. *)
Definition lstrip_with (p : N -> bool) (s : pystr) : pystr := drop_while p s.
Definition rstrip_with (p : N -> bool) (s : pystr) : pystr :=
  rev (drop_while p (rev s)).
Definition strip_with (p : N -> bool) (s : pystr) : pystr :=
  rstrip_with p (lstrip_with p s).

(** [s.strip()] *)
Definition strip (s : pystr) : pystr := strip_with is_space s.

(** [s.strip(chars)] *)
Definition mem_char (chars : pystr) (c : N) : bool :=
  existsb (N.eqb c) chars.
Definition strip_chars (chars : pystr) (s : pystr) : pystr :=
  strip_with (mem_char chars) s.

(** [s.startswith(p)] *)
Fixpoint starts_with (p s : pystr) : bool :=
  match p, s with
  | [], _ => true
  | _ :: _, [] => false
  | a :: p', b :: s' => (a =? b)%N && starts_with p' s'
  end.

(** [needle in s] *)
Fixpoint contains (needle s : pystr) : bool :=
  starts_with needle s ||
  match s with
  | [] => false
  | _ :: s' => contains needle s'
  end.

(** [s.split(sep)] for a non-empty separator: the pieces between the
    non-overlapping occurrences of [sep], scanned from the left.  [skip]
    counts the characters of an occurrence still to be passed over, [cur] is
    the current piece, reversed. *)
Fixpoint split_go (sep : pystr) (skip : nat) (cur : pystr) (s : pystr)
  : list pystr :=
  match s with
  | [] => [rev cur]
  | c :: s' =>
      match skip with
      | S k => split_go sep k cur s'
      | O =>
          if starts_with sep s
          then rev cur :: split_go sep (length sep - 1) [] s'
          else split_go sep 0 (c :: cur) s'
      end
  end.

Definition split (sep : pystr) (s : pystr) : list pystr :=
  split_go sep 0 [] s.

(** [s[1:]] and [s[:-1]] *)
Definition slice_from_1 (s : pystr) : pystr := drop 1 s.
Definition slice_to_last (s : pystr) : pystr := take (length s - 1) s.

(** Iterating over a text file yields its lines, each with its ["\n"] kept;
    a last line without one is yielded as it is.  The argument is the text of
    the file as the text layer hands it over (decoded, line ends already
    translated to ["\n"]). *)
Fixpoint readlines_go (cur : pystr) (s : pystr) : list pystr :=
  match s with
  | [] => match cur with [] => [] | _ => [rev cur] end
  | c :: s' =>
      if (c =? NL)%N then rev (c :: cur) :: readlines_go [] s'
      else readlines_go (c :: cur) s'
  end.

Definition readlines (text : pystr) : list pystr := readlines_go [] text.

(* ===================================================================== *)
(** ** Exceptions and results *)
(* ===================================================================== *)

(** Why a [ValueError] was raised. *)
Inductive value_error :=
  | NotEnoughValuesToUnpack
  | TooManyValuesToUnpack
  | InvalidLiteralForInt
  | CouldNotConvertToFloat
  | TagNotPresent
  | NoPaddingToken.

Inductive exn :=
  | ValueError (why : value_error)
  | AttributeError (obj attr : pystr)
  | TypeError (what : pystr)
  | ZeroDivisionError
  | ParseError
  | OtherError (cls : pystr).

Inductive result (A : Type) :=
  | Ok (a : A)
  | Raise (e : exn).
Arguments Ok {A} a.
Arguments Raise {A} e.

#[global] Instance result_ret : MRet result := fun A a => Ok a.
#[global] Instance result_bind : MBind result := fun A B f r =>
  match r with
  | Ok a => f a
  | Raise e => Raise e
  end.

(** [a, b = parts] *)
Definition unpack2 {A} (parts : list A) : result (A * A) :=
  match parts with
  | [a; b] => Ok (a, b)
  | [] | [_] => Raise (ValueError NotEnoughValuesToUnpack)
  | _ => Raise (ValueError TooManyValuesToUnpack)
  end.

(** A loop whose body may raise: the first exception ends it. *)
Fixpoint for_each {S A} (body : S -> A -> result S) (s : S) (l : list A)
  : result S :=
  match l with
  | [] => Ok s
  | a :: l' => s' ← body s a; for_each body s' l'
  end.

(* ===================================================================== *)
(** ** Python values held by a configuration object *)
(* ===================================================================== *)

Inductive pyval :=
  | VNone
  | VInt (z : Z)
  | VFloat (f : float)
  | VStr (s : pystr)
  | VTuple (items : list pyval).

(** An object's attribute table (its [__dict__]), and [obj.name]. *)
Abbreviation pyattrs := (gmap pystr pyval).

Definition getattr (cls : pystr) (obj : pyattrs) (name : pystr)
  : result pyval :=
  match obj !! name with
  | Some v => Ok v
  | None => Raise (AttributeError cls name)
  end.

(* ===================================================================== *)
(** ** dtchess/utils/config.py *)
(* ===================================================================== *)

(** The fields of the [TrainingConfig] dataclass with their defaults, in
    declaration order. *)
Definition TrainingConfig_fields : list (pystr * pyval) :=
  [ (py "max_epochs", VInt 10);
    (py "batch_size", VInt 64);
    (py "learning_rate", VFloat 1e-4);
    (py "betas", VTuple [VFloat 0.9; VFloat 0.95]);
    (py "weight_decay", VFloat 0.1);
    (py "ckpt_path", VNone);
    (py "num_workers", VInt 0) ].

Definition TrainingConfig_defaults : pyattrs :=
  list_to_map TrainingConfig_fields.

(** Calling the dataclass with keyword arguments: a keyword that is no
    field is a [TypeError]; a field without a keyword takes its default. *)
Definition TrainingConfig (kwargs : pyattrs) : result pyattrs :=
  if forallb (fun k => bool_decide (k ∈ TrainingConfig_fields.*1))
             (map_to_list kwargs).*1
  then Ok (kwargs ∪ TrainingConfig_defaults)
  else Raise (TypeError (py "unexpected keyword argument")).

Section Config.
(** The builtins [int(str)] and [float(str)]; [None] is their
    [ValueError]. *)
Variable py_int : pystr -> option Z.
Variable py_float : pystr -> option float.

Definition int_ (v : pystr) : result Z :=
  match py_int v with
  | Some z => Ok z
  | None => Raise (ValueError InvalidLiteralForInt)
  end.

Definition float_ (v : pystr) : result float :=
  match py_float v with
  | Some f => Ok f
  | None => Raise (ValueError CouldNotConvertToFloat)
  end.

Definition key_in (k : pystr) (keys : list pystr) : bool :=
  bool_decide (k ∈ keys).

(** The body of the [for line in f] loop of [config_from_file]. *)
Definition config_line (kwargs : pyattrs) (line : pystr) : result pyattrs :=
  '(k, v) ← unpack2 (split [COLON] line);
  let k := strip k in
  let v := strip (strip_chars [NL] v) in
  if key_in k [py "max_epochs"; py "batch_size"; py "num_workers"] then
    z ← int_ v; Ok (<[k := VInt z]> kwargs)
  else if key_in k [py "learning_rate"; py "weight_decay"] then
    f ← float_ v; Ok (<[k := VFloat f]> kwargs)
  else if bool_decide (k = py "betas") then
    '(b1_str, b2_str) ← unpack2 (split (py ", ") v);
    let b1_str := strip b1_str in
    let b2_str := strip b2_str in
    f1 ← float_ (slice_from_1 b1_str);
    f2 ← float_ (slice_to_last b2_str);
    Ok (<[k := VTuple [VFloat f1; VFloat f2]]> kwargs)
  else Ok kwargs.

(** [config_from_file], on the text of the file. *)
Definition config_from_file (text : pystr) : result pyattrs :=
  kwargs ← for_each config_line ∅ (readlines text);
  TrainingConfig kwargs.
End Config.

(** The keys under which the loop stores a value. *)
Definition recognised_keys : list pystr :=
  [py "max_epochs"; py "batch_size"; py "num_workers";
   py "learning_rate"; py "weight_decay"; py "betas"].

(** The text of a file with the given lines, each ended by a newline. *)
Definition file_of_lines (ls : list pystr) : pystr :=
  concat (List.map (fun l => l ++ [NL]) ls).

(** The key the loop body computes for a line: what stands before its first
    colon, stripped. *)
Definition line_key (line : pystr) : pystr :=
  strip (hd [] (split [COLON] line)).

(** Number of occurrences of a character. *)
Fixpoint count_char (c : N) (s : pystr) : nat :=
  match s with
  | [] => O
  | a :: s' => (if (c =? a)%N then 1 else 0) + count_char c s'
  end.

(* --------------------------------------------------------------------- *)
(** *** The parse rules as the specification words them *)
(* --------------------------------------------------------------------- *)

(** The bracket characters that may enclose the [betas] pair. *)
Definition bracket_chars : pystr := py "()[]".
Definition is_bracket (c : N) : bool := mem_char bracket_chars c.

(** [sep.join(parts)] *)
Fixpoint join (sep : pystr) (parts : list pystr) : pystr :=
  match parts with
  | [] => []
  | [p] => p
  | p :: rest => p ++ sep ++ join sep rest
  end.

Section ConfigRules.
Variable py_int : pystr -> option Z.
Variable py_float : pystr -> option float.

(** One rule per recognised key; [None] for a key that is not recognised
    (it is ignored).
    - [max_epochs], [batch_size], [num_workers]: direct int parse;
    - [learning_rate], [weight_decay]: direct float parse;
    - [betas]: split the value on [", "], strip the enclosing bracket
      characters from each side, parse each part as a float. *)
Definition rule_value (key value : pystr) : option (result pyval) :=
  if key_in key [py "max_epochs"; py "batch_size"; py "num_workers"] then
    Some (z ← int_ py_int value; Ok (VInt z))
  else if key_in key [py "learning_rate"; py "weight_decay"] then
    Some (f ← float_ py_float value; Ok (VFloat f))
  else if bool_decide (key = py "betas") then
    Some ('(p1, p2) ← unpack2 (split (py ", ") value);
          f1 ← float_ py_float (strip_chars bracket_chars p1);
          f2 ← float_ py_float (strip_chars bracket_chars p2);
          Ok (VTuple [VFloat f1; VFloat f2]))
  else None.

(** One [key: value] pair per line: the key is what stands before the
    first colon, the value what follows it, both without the surrounding
    blanks; a line with no colon is malformed. *)
Definition rule_line (kwargs : pyattrs) (line : pystr) : result pyattrs :=
  match split [COLON] line with
  | [] | [_] => Raise (ValueError NotEnoughValuesToUnpack)
  | k :: rest =>
      let key := strip k in
      let value := strip (join [COLON] rest) in
      match rule_value key value with
      | Some r => v ← r; Ok (<[key := v]> kwargs)
      | None => Ok kwargs
      end
  end.

(** Fields absent from the file keep the defaults. *)
Definition rule_config (text : pystr) : result pyattrs :=
  kwargs ← for_each rule_line ∅ (readlines text);
  Ok (kwargs ∪ TrainingConfig_defaults).
End ConfigRules.

(** A string that neither starts nor ends with a character of the class
    [p]. *)
Definition ends_clean (p : N -> bool) (s : pystr) : bool :=
  match s with
  | [] => true
  | c :: _ => negb (p c) && negb (p (List.last s c))
  end.

(** A [betas] value in the documented form: an opening bracket, the first
    number, [", "], the second number, a closing bracket; the numbers
    themselves carry no blank or bracket at their ends. *)
Definition valid_betas (v : pystr) : bool :=
  match split (py ", ") v with
  | [p1; p2] =>
      match p1, rev p2 with
      | o :: a, c :: rb =>
          is_bracket o && is_bracket c
          && ends_clean (fun x => is_space x || is_bracket x) a
          && ends_clean (fun x => is_space x || is_bracket x) (rev rb)
      | _, _ => false
      end
  | _ => false
  end.

(** A valid line is [key: value] with a single colon; a [betas] value is in
    the documented form. *)
Definition valid_line (line : pystr) : bool :=
  match split [COLON] line with
  | [k; v] =>
      if bool_decide (strip k = py "betas")
      then valid_betas (strip (strip_chars [NL] v))
      else true
  | _ => false
  end.

Definition valid_config_text (text : pystr) : bool :=
  forallb valid_line (readlines text).

(* --------------------------------------------------------------------- *)
(** *** Reference instances of the builtins on plain decimal literals *)
(* --------------------------------------------------------------------- *)

Definition digit_of (c : N) : option Z :=
  if ((48 <=? c) && (c <=? 57))%N then Some (Z.of_N (c - 48)) else None.

Fixpoint digits_go (acc : Z) (s : pystr) : option Z :=
  match s with
  | [] => Some acc
  | c :: s' => d ← digit_of c; digits_go (10 * acc + d) s'
  end.

Definition digits (s : pystr) : option Z :=
  match s with
  | [] => None
  | _ => digits_go 0 s
  end.

(** [int(s)] for an optional sign and ASCII decimal digits, blanks around
    them allowed.  It stands for [int] on such literals only: it gives no
    value to the other forms [int] reads (digits grouped by underscores,
    digits of other scripts). *)
Definition int_decimal (s : pystr) : option Z :=
  match strip s with
  | 45%N :: r => z ← digits r; Some (- z)
  | 43%N :: r => digits r
  | r => digits r
  end.

(** [float(s)] for [digits.digits] with at most 15 significant digits: both
    the digits read as an integer and the power of ten are binary64 values,
    so their quotient is the correctly rounded value of the literal.  It
    stands for [float] on such literals only, and gives no value to the
    other forms [float] reads (signs, exponents, [inf], [nan]). *)
Definition float_decimal (s : pystr) : option float :=
  match split (py ".") (strip s) with
  | [ip; fp] =>
      m ← digits (ip ++ fp);
      if (m <? 10 ^ 15) && (Nat.leb (length fp) 15)
      then Some (PrimFloat.div
                   (PrimFloat.of_uint63 (Uint63.of_Z m))
                   (PrimFloat.of_uint63 (Uint63.of_Z (10 ^ Z.of_nat (length fp)))))
      else None
  | _ => None
  end.

(* ===================================================================== *)
(** ** The tokenizer and the objects of the model *)
(* ===================================================================== *)

(** The part of a pretrained tokenizer that the package uses: its
    vocabulary, the tokens added after loading, the padding token, and the
    subword algorithm (text to token ids). *)
Record Tokenizer := {
  encoder : list pystr;
  added_tokens : list pystr;
  pad_token : option pystr;
  tokenize : pystr -> list nat
}.

(** [tokeniser.vocab_size]: the size of the pretrained vocabulary, without
    the added tokens. *)
Definition vocab_size (t : Tokenizer) : nat := length (encoder t).

(** The id of a token: its position in the full vocabulary. *)
Fixpoint index_of (tok : pystr) (vocab : list pystr) : option nat :=
  match vocab with
  | [] => None
  | t :: vocab' =>
      if bool_decide (t = tok) then Some O
      else n ← index_of tok vocab'; Some (S n)
  end.

Definition token_id (t : Tokenizer) (tok : pystr) : option nat :=
  index_of tok (encoder t ++ added_tokens t).

(** [tokeniser.add_special_tokens({"pad_token": tok})]: the token becomes
    the padding token, and joins the vocabulary unless it is already in
    it. *)
Definition add_pad_token (tok : pystr) (t : Tokenizer) : Tokenizer :=
  {| encoder := encoder t;
     added_tokens :=
       if bool_decide (tok ∈ encoder t ++ added_tokens t)
       then added_tokens t else added_tokens t ++ [tok];
     pad_token := Some tok;
     tokenize := tokenize t |}.

(** [tokeniser(text, padding="max_length", max_length=n, truncation=True)]
    for one text: the ids, cut at [n] and filled up to [n] with the id of
    the padding token. *)
Definition tokenizer_call (t : Tokenizer) (text : pystr) (max_length : nat)
  : result (list nat) :=
  match pad_token t ≫= token_id t with
  | None => Raise (ValueError NoPaddingToken)
  | Some pad =>
      let ids := take max_length (tokenize t text) in
      Ok (ids ++ replicate (max_length - length ids) pad)
  end.

(** The objects the model factory and the pipelines pass around. *)
Inductive pyobj :=
  | OInt (z : Z)
  | OMethod (cls name : pystr)
  | OEmbedding (num_embeddings embedding_dim : Z)
  | OModule (cls : pystr) (attrs : list (pystr * pyobj))
  | OTokenizer (t : Tokenizer).

Fixpoint assoc_get {V} (k : pystr) (l : list (pystr * V)) : option V :=
  match l with
  | [] => None
  | (k', v) :: l' => if bool_decide (k' = k) then Some v else assoc_get k l'
  end.

Fixpoint assoc_set {V} (k : pystr) (v : V) (l : list (pystr * V))
  : list (pystr * V) :=
  match l with
  | [] => [(k, v)]
  | (k', v') :: l' =>
      if bool_decide (k' = k) then (k, v) :: l' else (k', v') :: assoc_set k v l'
  end.

Definition class_of (o : pyobj) : pystr :=
  match o with
  | OInt _ => py "int"
  | OMethod _ _ => py "builtin_function_or_method"
  | OEmbedding _ _ => py "Embedding"
  | OModule cls _ => cls
  | OTokenizer _ => py "GPT2Tokenizer"
  end.

(** [o.name], for the attributes the package reads. *)
Definition obj_getattr (o : pyobj) (name : pystr) : result pyobj :=
  let missing := Raise (AttributeError (class_of o) name) in
  match o with
  | OEmbedding n d =>
      if bool_decide (name = py "num_embeddings") then Ok (OInt n)
      else if bool_decide (name = py "embedding_dim") then Ok (OInt d)
      else missing
  | OModule _ attrs =>
      match assoc_get name attrs with
      | Some v => Ok v
      | None => missing
      end
  | OTokenizer t =>
      if bool_decide (name = py "vocab_size") then Ok (OInt (Z.of_nat (vocab_size t)))
      else missing
  | _ => missing
  end.

(** [o.name = v] on a module. *)
Definition obj_setattr (o : pyobj) (name : pystr) (v : pyobj) : result pyobj :=
  match o with
  | OModule cls attrs => Ok (OModule cls (assoc_set name v attrs))
  | _ => Raise (AttributeError (class_of o) name)
  end.

(** [nn.Embedding(n, d)] *)
Definition Embedding (n d : pyobj) : result pyobj :=
  match n, d with
  | OInt n, OInt d => Ok (OEmbedding n d)
  | _, _ => Raise (TypeError (py "Embedding"))
  end.

(** [a + b] *)
Definition py_add (a b : pyobj) : result pyobj :=
  match a, b with
  | OInt x, OInt y => Ok (OInt (x + y))
  | _, _ => Raise (TypeError (py "unsupported operand type(s) for +"))
  end.

(** [sum(items)] *)
Definition py_sum (items : list pyobj) : result pyobj :=
  for_each py_add (OInt 0) items.

(* ===================================================================== *)
(** ** dtchess/models/gpt.py *)
(* ===================================================================== *)

(** The registry of pretrained tokenizers and models. *)
Record Hub := {
  GPT2Tokenizer_from_pretrained : pystr -> result Tokenizer;
  GPT2LMHeadModel_from_pretrained : pystr -> result pyobj
}.

(** What [GPT2LMHeadModel.from_pretrained] returns is a [GPT2LMHeadModel]:
    a module with a [transformer] and an [lm_head].  Its embedding tables
    are attributes of the [transformer] (where [train_light.py] reads
    [model.transformer.wpe]); the object has no [wte] of its own. *)
Definition has_attr (name : pystr) (attrs : list (pystr * pyobj)) : bool :=
  match assoc_get name attrs with
  | Some _ => true
  | None => false
  end.

Definition is_GPT2LMHeadModel (o : pyobj) : bool :=
  match o with
  | OModule cls attrs =>
      bool_decide (cls = py "GPT2LMHeadModel")
      && has_attr (py "transformer") attrs
      && has_attr (py "lm_head") attrs
      && negb (has_attr (py "wte") attrs)
  | _ => false
  end.

(** [create_model].  Moving the model to the device leaves its attributes
    as they are. *)
Definition create_model (hub : Hub) (model_type : pystr)
  : result (pyobj * pyobj) :=
  tokeniser ← GPT2Tokenizer_from_pretrained hub model_type;
  let tokeniser := add_pad_token (py "[PAD]") tokeniser in
  model ← GPT2LMHeadModel_from_pretrained hub model_type;
  wte ← obj_getattr model (py "wte");
  dim ← obj_getattr wte (py "embedding_dim");
  emb ← Embedding (OInt (Z.of_nat (vocab_size tokeniser) + 1)) dim;
  model ← obj_setattr model (py "wte") emb;
  Ok (OTokenizer tokeniser, model).

(* ===================================================================== *)
(** ** The data pipelines: utils.py [preprocess_data], train_light.py [prep] *)
(* ===================================================================== *)

(** A loader over a streamed, lazily mapped dataset: the texts, the function
    mapped over them (run when the loader is iterated) and the batch
    size. *)
Record DataLoader := {
  dl_texts : list pystr;
  dl_map : pystr -> result (list nat);
  dl_batch_size : pyval
}.

(** [preprocess_data].  [load_dataset] is the dataset source. *)
Definition preprocess_data (load_dataset : pyval -> result (list pystr))
    (tokeniser : Tokenizer) (config : pyattrs) : result DataLoader :=
  name ← getattr (py "TrainingConfig") config (py "dataset");
  dataset ← load_dataset name;
  let tokeniser := add_pad_token (py "[PAD]") tokeniser in
  batch_size ← getattr (py "TrainingConfig") config (py "batch_size");
  Ok {| dl_texts := dataset;
        dl_map := fun text => tokenizer_call tokeniser text 1024;
        dl_batch_size := batch_size |}.

(** Calling an object as the tokenizer is called in the pipelines. *)
Definition obj_call_tokenizer (f : pyobj) (text : pystr) (max_length : pyobj)
  : result (list nat) :=
  match f, max_length with
  | OTokenizer t, OInt n => tokenizer_call t text (Z.to_nat n)
  | _, _ => Raise (TypeError (py "__call__"))
  end.

(** The function [prep] maps over the dataset; [tokeniser] and [model] are
    the variables of [prep] it closes over. *)
Definition prep_map (tokeniser model : pyobj) (text : pystr)
  : result (list nat) :=
  transformer ← obj_getattr model (py "transformer");
  wpe ← obj_getattr transformer (py "wpe");
  max_length ← obj_getattr wpe (py "num_embeddings");
  obj_call_tokenizer tokeniser text max_length.

(** [prep]: the pair returned by [create_model] is unpacked as
    [model, tokeniser]. *)
Definition prep (hub : Hub) (dataset : list pystr)
  : result (DataLoader * pyobj * pyobj) :=
  '(model, tokeniser) ← create_model hub (py "gpt2");
  Ok ({| dl_texts := dataset;
         dl_map := prep_map tokeniser model;
         dl_batch_size := VInt 8 |}, tokeniser, model).

(** Iterating a loader runs the mapped function on every text. *)
Fixpoint map_result {A B} (f : A -> result B) (l : list A) : result (list B) :=
  match l with
  | [] => Ok []
  | a :: l' => b ← f a; bs ← map_result f l'; Ok (b :: bs)
  end.

Definition iterate (dl : DataLoader) : result (list (list nat)) :=
  map_result (dl_map dl) (dl_texts dl).

(* ===================================================================== *)
(** ** dtchess/utils/utils.py *)
(* ===================================================================== *)

(** A parameter tensor of a model ([nn.Parameter]): its shape, and whether
    it is trained. *)
Record ParamTensor := {
  shape : list Z;
  requires_grad : bool
}.

(** [p.numel()], the number of elements, is a method of the tensor;
    [p.numel], as [count_parameters] writes it, is the bound method
    itself. *)
Definition ParamTensor_numel (p : ParamTensor) : Z := fold_right Z.mul 1 (shape p).
Definition ParamTensor_numel_attr (p : ParamTensor) : pyobj :=
  OMethod (py "Parameter") (py "numel").

(** [count_parameters], on the parameters that [model.parameters()]
    yields. *)
Definition count_parameters (parameters : list ParamTensor) : result pyobj :=
  py_sum (List.map ParamTensor_numel_attr
            (filter (fun p => requires_grad p = true) parameters)).

(** What the specification asks of it: the sum of the element counts of the
    parameters that require gradients. *)
Definition trainable_parameter_count (parameters : list ParamTensor) : Z :=
  fold_right Z.add 0
    (List.map ParamTensor_numel
       (filter (fun p => requires_grad p = true) parameters)).

(** An element of a parsed XML document. *)
Inductive Element :=
  | Elem (tag : pystr) (text : option pystr) (tail : option pystr)
         (children : list Element).

Definition Element_tag (e : Element) : pystr :=
  match e with Elem tag _ _ _ => tag end.
Definition Element_text (e : Element) : option pystr :=
  match e with Elem _ text _ _ => text end.
Definition Element_children (e : Element) : list Element :=
  match e with Elem _ _ _ children => children end.

(** A path without any of the characters [/ * [ @ . { }] is a plain tag
    name: [find] then compares it with the tags of the direct children. *)
Definition plain_path (path : pystr) : bool :=
  forallb (fun c => negb (mem_char (py "/*[@.{}") c)) path.

Fixpoint first_child (name : pystr) (children : list Element)
  : option Element :=
  match children with
  | [] => None
  | e :: rest =>
      if bool_decide (Element_tag e = name) then Some e
      else first_child name rest
  end.

Section ExtractTag.
(** [ET.fromstring], and [Element.find] on a path that is not a plain
    name. *)
Variable fromstring : pystr -> result Element.
Variable find_path : Element -> pystr -> option Element.

Definition Element_find (e : Element) (path : pystr) : option Element :=
  if plain_path path then first_child path (Element_children e)
  else find_path e path.

(** [extract_tag]; the result [None] is Python's [None] (an element
    without text). *)
Definition extract_tag (input_string tag_name : pystr)
  : result (option pystr) :=
  if negb (contains tag_name input_string)
  then Raise (ValueError TagNotPresent)
  else
    let input_string := py "<root>" ++ input_string ++ py "</root>" in
    root ← fromstring input_string;
    match Element_find root tag_name with
    | Some e => Ok (Element_text e)
    | None => Raise (AttributeError (py "NoneType") (py "text"))
    end.
End ExtractTag.

(* --------------------------------------------------------------------- *)
(** *** A reference XML parser for the attribute-free fragment *)
(* --------------------------------------------------------------------- *)

(** Documents made of character data and of elements [<name>..</name>] and
    [<name/>] without attributes, entities or comments; the text of an
    element is the character data before its first child, the tail of a
    child the character data after it.  Anything else is refused, so the
    parser stands for [ET.fromstring] on this fragment only. *)

Inductive xml_token :=
  | TOpen (name : pystr)
  | TClose (name : pystr)
  | TEmpty (name : pystr)
  | TText (s : pystr).

Definition is_name_char (c : N) : bool :=
  ((48 <=? c) && (c <=? 57) || (65 <=? c) && (c <=? 90)
   || (97 <=? c) && (c <=? 122) || (c =? 95))%N.

Definition is_name (s : pystr) : bool :=
  match s with
  | [] => false
  | c :: _ => negb ((48 <=? c) && (c <=? 57))%N && forallb is_name_char s
  end.

Definition tag_token (body : pystr) : option xml_token :=
  match body, rev body with
  | 47%N :: name, _ => if is_name name then Some (TClose name) else None
  | _, 47%N :: rname =>
      if is_name (rev rname) then Some (TEmpty (rev rname)) else None
  | _, _ => if is_name body then Some (TOpen body) else None
  end.

(** [tag]: the characters of the tag being read, reversed, when inside
    angle brackets; [txt]: the character data being read, reversed. *)
Fixpoint xml_tokens (tag : option pystr) (txt : pystr) (s : pystr)
  : option (list xml_token) :=
  let flush := match txt with [] => [] | _ => [TText (rev txt)] end in
  match s with
  | [] => match tag with None => Some flush | Some _ => None end
  | c :: s' =>
      match tag with
      | Some body =>
          if (c =? 62)%N then
            t ← tag_token (rev body);
            ts ← xml_tokens None [] s';
            Some (t :: ts)
          else if (c =? 60)%N then None
          else xml_tokens (Some (c :: body)) [] s'
      | None =>
          if (c =? 60)%N then
            ts ← xml_tokens (Some []) [] s';
            Some (flush ++ ts)
          else if (c =? 38)%N then None
          else xml_tokens None (c :: txt) s'
      end
  end.

(** An open element: its tag, its text, and its children so far, last
    first. *)
Definition xml_frame : Type := pystr * option pystr * list Element.

Definition add_text (s : pystr) (f : xml_frame) : xml_frame :=
  match f with
  | (tag, text, []) => (tag, Some (default [] text ++ s), [])
  | (tag, text, Elem t x tail cs :: rest) =>
      (tag, text, Elem t x (Some (default [] tail ++ s)) cs :: rest)
  end.

Definition add_child (e : Element) (f : xml_frame) : xml_frame :=
  match f with
  | (tag, text, cs) => (tag, text, e :: cs)
  end.

Fixpoint xml_build (stack : list xml_frame) (ts : list xml_token)
  : option Element :=
  match ts with
  | [] => None
  | t :: ts' =>
      match t, stack with
      | TOpen name, _ => xml_build ((name, None, []) :: stack) ts'
      | TEmpty name, f :: stack' =>
          xml_build (add_child (Elem name None None []) f :: stack') ts'
      | TEmpty name, [] =>
          match ts' with [] => Some (Elem name None None []) | _ => None end
      | TText s, f :: stack' => xml_build (add_text s f :: stack') ts'
      | TText _, [] => None
      | TClose name, (tag, text, cs) :: stack' =>
          if bool_decide (tag = name) then
            let e := Elem tag text None (rev cs) in
            match stack', ts' with
            | [], [] => Some e
            | [], _ => None
            | f :: stack'', _ => xml_build (add_child e f :: stack'') ts'
            end
          else None
      | TClose _, [] => None
      end
  end.

Definition xml_fromstring (s : pystr) : result Element :=
  match xml_tokens None [] s ≫= xml_build [] with
  | Some e => Ok e
  | None => Raise ParseError
  end.

(* ===================================================================== *)
(** ** dtchess/train.py *)
(* ===================================================================== *)

(** What a run of the training loop does, in order: the calls to its
    collaborators that returned (the tracking service, the passes over each
    batch, the optimiser, the files written). *)
Inductive event (Model Batch : Type) :=
  | WandbInit (config : pyattrs)
  | WandbWatch (log_freq : pyval)
  | ModelTrain
  | Forward (i : nat) (batch : Batch)
  | ZeroGrad
  | Backward
  | OptimiserStep
  | Save (model : Model) (path : pystr)
  | LogArtifact (name path : pystr).
Arguments WandbInit {Model Batch} config.
Arguments WandbWatch {Model Batch} log_freq.
Arguments ModelTrain {Model Batch}.
Arguments Forward {Model Batch} i batch.
Arguments ZeroGrad {Model Batch}.
Arguments Backward {Model Batch}.
Arguments OptimiserStep {Model Batch}.
Arguments Save {Model Batch} model path.
Arguments LogArtifact {Model Batch} name path.

(** Code with effects: it extends the trace of events and returns a value
    or raises. *)
Definition io (E A : Type) : Type := list E -> list E * result A.

#[global] Instance io_ret {E} : MRet (io E) := fun A a t => (t, Ok a).
#[global] Instance io_bind {E} : MBind (io E) := fun A B f m t =>
  match m t with
  | (t', Ok a) => f a t'
  | (t', Raise e) => (t', Raise e)
  end.

Definition lift {E A} (r : result A) : io E A := fun t => (t, r).

(** A [for] loop that threads a value through its body. *)
Fixpoint io_for {E S A} (body : S -> A -> io E S) (s : S) (l : list A)
  : io E S :=
  match l with
  | [] => mret s
  | a :: l' => s' ← body s a; io_for body s' l'
  end.

(** [enumerate(l)] *)
Definition enumerate {A} (l : list A) : list (nat * A) :=
  zip (seq 0 (length l)) l.

(** [dataclasses.asdict(config)]: the fields of the dataclass. *)
Definition asdict (config : pyattrs) : pyattrs :=
  filter (fun kv => kv.1 ∈ TrainingConfig_fields.*1) config.

(** [range(v)]: how many times the loop over it runs. *)
Definition py_range (v : pyval) : result nat :=
  match v with
  | VInt n => Ok (Z.to_nat n)
  | _ => Raise (TypeError (py "range"))
  end.

Section Train.
(** The state of the model's parameters, a batch of the loader, and what
    one forward pass, backpropagation and optimiser step make of the
    parameters. *)
Variable Model : Type.
Variable Batch : Type.
Variable optimiser_step : Model -> Batch -> Model.
(** The collaborators may raise: the tracking service, the forward and
    backward passes, the optimiser, [torch.save] on a directory that does
    not exist.  [outcome t e] is what the call [e] does when it is made
    after the calls [t]. *)
Variable outcome : list (event Model Batch) -> event Model Batch -> result unit.
(** The builtins: formatting a value in an f-string, and [i % x == 0] for
    a float [x]. *)
Variable format_ : pyval -> pystr.
Variable float_mod_is_zero : Z -> float -> result bool.

(** A call to a collaborator: it joins the trace when it returns, and
    its exception ends the run when it raises. *)
Definition call (e : event Model Batch) : io (event Model Batch) unit :=
  fun t =>
    match outcome t e with
    | Ok _ => (t ++ [e], Ok tt)
    | Raise x => (t, Raise x)
    end.

(** [i % n == 0] *)
Definition mod_is_zero (i : Z) (n : pyval) : result bool :=
  match n with
  | VInt 0 => Raise ZeroDivisionError
  | VInt n => Ok (i mod n =? 0)
  | VFloat f => float_mod_is_zero i f
  | _ => Raise (TypeError (py "unsupported operand type(s) for %"))
  end.

(** The path of a checkpoint file, and the name of its artifact. *)
Definition model_path (ckpt_path : pyval) (run_id : pystr) : pystr :=
  format_ ckpt_path ++ py "/gpt2-" ++ run_id ++ py ".pt".
Definition artifact_name (run_id : pystr) : pystr := py "gpt2-" ++ run_id.

(** The body of the loop over the batches. *)
Definition train_batch (config : pyattrs) (run_id : pystr)
    (model : Model) (ib : nat * Batch) : io (event Model Batch) Model :=
  let '(i, batch) := ib in
  call (Forward i batch);;
  call ZeroGrad;;
  call Backward;;
  call OptimiserStep;;
  let model := optimiser_step model batch in
  due ← (if (0 <? i)%nat
         then n ← lift (getattr (py "TrainingConfig") config
                                (py "checkpoint_every_n"));
              lift (mod_is_zero (Z.of_nat i) n)
         else mret false);
  if (due : bool) then
    ckpt_path ← lift (getattr (py "TrainingConfig") config (py "ckpt_path"));
    call (Save model (model_path ckpt_path run_id));;
    call (LogArtifact (artifact_name run_id) (model_path ckpt_path run_id));;
    mret model
  else mret model.

(** [train]: [run_id] is the id the tracking service gives the run. *)
Definition train (model : Model) (train_dataloader : list Batch)
    (config : pyattrs) (run_id : pystr) : io (event Model Batch) Model :=
  call (WandbInit (asdict config));;
  log_freq ← lift (getattr (py "TrainingConfig") config (py "log_every_n"));
  call (WandbWatch log_freq);;
  call ModelTrain;;
  num_epochs ← lift (getattr (py "TrainingConfig") config (py "num_epochs"));
  epochs ← lift (py_range num_epochs);
  io_for (fun model _ =>
            io_for (train_batch config run_id) model
                   (enumerate train_dataloader))
         model (seq 0 epochs).

(** A run from the empty trace. *)
Definition run_train (model : Model) (train_dataloader : list Batch)
    (config : pyattrs) (run_id : pystr)
  : list (event Model Batch) * result Model :=
  train model train_dataloader config run_id [].
End Train.

(** The forward passes, and the files written, of a trace: the writes that
    returned, in order. *)
Definition is_forward {M B} (e : event M B) : bool :=
  match e with Forward _ _ => true | _ => false end.
Definition forward_passes {M B} (t : list (event M B)) : nat :=
  length (filter (fun e => is_forward e = true) t).

Fixpoint saved_files {M B} (t : list (event M B)) : list (pystr * M) :=
  match t with
  | [] => []
  | Save m p :: t' => (p, m) :: saved_files t'
  | _ :: t' => saved_files t'
  end.


(* --------------------------------------------------------------------- *)
(** *** Reference instances for concrete runs *)
(* --------------------------------------------------------------------- *)

(** [str] of the values a checkpoint path takes in the runs below: a string
    is itself, [None] is ["None"]. *)
Definition format_path (v : pyval) : pystr :=
  match v with
  | VStr s => s
  | _ => py "None"
  end.

(** The runs below hold no float interval: the operator is not reached. *)
Definition float_mod_unused (i : Z) (f : float) : result bool :=
  Raise (TypeError (py "float modulo")).

(** A configuration object: a [TrainingConfig] to which the attributes the
    loop reads were added. *)
Definition loop_config (num_epochs checkpoint_every_n : Z) : pyattrs :=
  <[py "num_epochs" := VInt num_epochs]>
  (<[py "log_every_n" := VInt 1]>
  (<[py "checkpoint_every_n" := VInt checkpoint_every_n]>
  (<[py "ckpt_path" := VStr (py "ckpts")]> TrainingConfig_defaults))).

(** Collaborators that raise nothing. *)
Definition calls_return {E : Type} (t : list E) (e : E) : result unit := Ok tt.

(** Collaborators of which [torch.save] finds no directory to write to. *)
Definition save_fails {M B : Type} (t : list (event M B)) (e : event M B)
  : result unit :=
  match e with
  | Save _ _ => Raise (OtherError (py "RuntimeError"))
  | _ => Ok tt
  end.

(** A run that counts the optimiser steps: the model is the number of steps
    taken so far. *)
Definition counting_run (config : pyattrs) (batches : list nat)
  : list (event nat nat) * result nat :=
  run_train nat nat (fun m _ => S m) calls_return format_path float_mod_unused
            0%nat batches config (py "r1").

(* --------------------------------------------------------------------- *)
(** *** Predicates on traces *)
(* --------------------------------------------------------------------- *)

(** Every event a computation adds to the trace satisfies [Q]. *)
Definition emits {E A} (Q : E -> Prop) (m : io E A) : Prop :=
  forall t, exists new, (m t).1 = t ++ new /\ Forall Q new.


(* --------------------------------------------------------------------- *)
(** *** A small registry for concrete runs *)
(* --------------------------------------------------------------------- *)

(** A tokenizer with a vocabulary of three tokens. *)
Definition tiny_tokenizer : Tokenizer :=
  {| encoder := [py "a"; py "b"; py "<|endoftext|>"];
     added_tokens := [];
     pad_token := None;
     tokenize := List.map (fun c => if (c =? 97)%N then 0%nat else 1%nat) |}.

(** A [GPT2Model]: its embedding tables are its own attributes. *)
Definition bare_model : pyobj :=
  OModule (py "GPT2Model")
    [(py "wte", OEmbedding 3 4); (py "wpe", OEmbedding 8 4)].

(** A [GPT2LMHeadModel], the class the factory loads: the embedding tables
    are attributes of its [transformer]. *)
Definition lm_head_model : pyobj :=
  OModule (py "GPT2LMHeadModel")
    [(py "transformer", bare_model); (py "lm_head", OModule (py "Linear") [])].

Definition lm_head_hub : Hub :=
  {| GPT2Tokenizer_from_pretrained := fun _ => Ok tiny_tokenizer;
     GPT2LMHeadModel_from_pretrained := fun _ => Ok lm_head_model |}.
(* ===================================================================== *)
(** ** dtchess/utils/utils.py: file names, board text, training setup *)
(* ===================================================================== *)

(** The slash and the space. *)
Definition SLASH : N := 47%N.
Definition SPACE : N := 32%N.

(** [s[:-4]] *)
Definition slice_to_minus_4 (s : pystr) : pystr := take (length s - 4) s.

(** [extract_filename].  [split] never returns an empty list, so its last
    piece, [[-1]], always exists. *)
Definition extract_filename (filepath : pystr) : pystr :=
  slice_to_minus_4 (List.last (split [SLASH] filepath) []).

Section Board.
(** A [chess.Board] and its [fen()]. *)
Variable Board : Type.
Variable fen : Board -> pystr.

(** [board_to_sequence]; the first piece, [[0]], always exists. *)
Definition board_to_sequence (board : Board) : pystr :=
  hd [] (split [SPACE] (fen board)).
End Board.






(** The standard starting position, as [fen()] writes it. *)
Definition starting_fen : pystr :=
  py "rnbqkbnr/pppppppp/8/8/8/8/PPPPPPPP/RNBQKBNR w KQkq - 0 1".

(** The events that write a file. *)
Definition is_save {M B} (e : event M B) : bool :=
  match e with Save _ _ => true | _ => false end.

(* --------------------------------------------------------------------- *)
(** *** Proof steps *)
(* --------------------------------------------------------------------- *)

(** Closes a goal [x ∉ l] on a concrete string and a concrete list. *)
Ltac not_in_list :=
  let H := fresh "H" in
  intros H; apply list_elem_of_In in H; vm_compute in H;
  repeat (destruct H as [H|H]; [discriminate H|]); exact H.

(* ===================================================================== *)
(** * Properties *)
(* ===================================================================== *)

(** ** Strings *)

Lemma split_go_single_length c s cur :
  length (split_go [c] 0 cur s) = S (count_char c s).
Proof.
  revert cur. induction s as [|a s IH]; intros cur; simpl; [reflexivity|].
  rewrite andb_true_r. destruct (c =? a)%N; simpl; rewrite IH; reflexivity.
Qed.

Lemma split_single_length c s : length (split [c] s) = S (count_char c s).
Proof. apply split_go_single_length. Qed.

Lemma count_char_not_elem c s : c ∉ s -> count_char c s = O.
Proof.
  induction s as [|a s IH]; intros Hn; simpl; [reflexivity|].
  rewrite not_elem_of_cons in Hn. destruct Hn as [Hne Hn].
  destruct (N.eqb_spec c a); [contradiction|]. rewrite IH by assumption.
  reflexivity.
Qed.

Lemma unpack2_length {A} (parts : list A) :
  length parts ≠ 2%nat -> exists w, unpack2 parts = Raise (ValueError w).
Proof.
  destruct parts as [|a [|b [|c parts]]]; simpl; intros H; eauto; lia.
Qed.

Lemma unpack2_ok {A} (parts : list A) a b :
  unpack2 parts = Ok (a, b) -> parts = [a; b].
Proof.
  destruct parts as [|x [|y [|z parts]]]; simpl; intros H; congruence.
Qed.

(** ** Loops *)

Lemma for_each_raises {S A} (body : S -> A -> result S) (P : exn -> Prop) :
  (forall s a e, body s a = Raise e -> P e) ->
  forall l a, a ∈ l -> (forall s, exists e, body s a = Raise e) ->
  forall s, exists e, for_each body s l = Raise e /\ P e.
Proof.
  intros Hall l a Hin Hbad. induction l as [|b l IH]; intros s.
  - inversion Hin.
  - simpl. destruct (body s b) as [s'|e] eqn:Hb; simpl.
    + apply elem_of_cons in Hin as [->|Hin].
      * destruct (Hbad s) as [e He]. congruence.
      * apply IH; assumption.
    + exists e. split; [reflexivity|]. eapply Hall; eassumption.
Qed.

Lemma for_each_ext {S A} (f g : S -> A -> result S) l :
  (forall s a, a ∈ l -> f s a = g s a) ->
  forall s, for_each f s l = for_each g s l.
Proof.
  induction l as [|a l IH]; intros Hfg s; simpl; [reflexivity|].
  rewrite Hfg by left. destruct (g s a) as [s'|e]; simpl; [|reflexivity].
  apply IH. intros s0 b Hb. apply Hfg. right. assumption.
Qed.

Lemma for_each_invariant {S A} (body : S -> A -> result S) (I : S -> Prop) l :
  (forall s a s', a ∈ l -> I s -> body s a = Ok s' -> I s') ->
  forall s s', I s -> for_each body s l = Ok s' -> I s'.
Proof.
  induction l as [|a l IH]; intros Hstep s s' Hs; simpl.
  - intros [= <-]. assumption.
  - destruct (body s a) as [s1|e] eqn:Hb; simpl; [|discriminate].
    apply IH.
    + intros s0 b s0' Hb0. apply Hstep. right. assumption.
    + eapply Hstep; [left|exact Hs|exact Hb].
Qed.

(** ** The configuration loader *)

Section ConfigFacts.
Variable py_int : pystr -> option Z.
Variable py_float : pystr -> option float.

Lemma int_raises v e : int_ py_int v = Raise e -> exists w, e = ValueError w.
Proof. unfold int_. destruct (py_int v); intros [= <-]; eauto. Qed.

Lemma float_raises v e :
  float_ py_float v = Raise e -> exists w, e = ValueError w.
Proof. unfold float_. destruct (py_float v); intros [= <-]; eauto. Qed.

Lemma unpack2_raises {A} (parts : list A) e :
  unpack2 parts = Raise e -> exists w, e = ValueError w.
Proof.
  destruct parts as [|x [|y [|z parts]]]; simpl; intros [= <-]; eauto.
Qed.

(** Every exception of the loop body is a [ValueError]. *)
Lemma config_line_raises kwargs line e :
  config_line py_int py_float kwargs line = Raise e ->
  exists w, e = ValueError w.
Proof.
  unfold config_line.
  destruct (unpack2 (split [COLON] line)) as [[k v]|e0] eqn:Hu; simpl;
    [|intros [= <-]; eapply unpack2_raises; eassumption].
  destruct (key_in _ _).
  { destruct (int_ py_int _) eqn:Hi; simpl; [discriminate|].
    intros [= <-]. eapply int_raises; eassumption. }
  destruct (key_in _ _).
  { destruct (float_ py_float _) eqn:Hf; simpl; [discriminate|].
    intros [= <-]. eapply float_raises; eassumption. }
  destruct (bool_decide _); [|discriminate].
  destruct (unpack2 (split (py ", ") _)) as [[b1 b2]|e1] eqn:Hu2; simpl;
    [|intros [= <-]; eapply unpack2_raises; eassumption].
  destruct (float_ py_float (slice_from_1 _)) eqn:Hf1; simpl;
    [|intros [= <-]; eapply float_raises; eassumption].
  destruct (float_ py_float (slice_to_last _)) eqn:Hf2; simpl;
    [discriminate|intros [= <-]; eapply float_raises; eassumption].
Qed.

(** A line whose number of colons is not one makes the loop body raise. *)
Lemma config_line_colons kwargs line :
  count_char COLON line ≠ 1%nat ->
  exists e, config_line py_int py_float kwargs line = Raise e.
Proof.
  intros Hc. unfold config_line.
  destruct (unpack2_length (split [COLON] line)) as [w Hw].
  { rewrite split_single_length. lia. }
  rewrite Hw. simpl. eauto.
Qed.

Lemma config_from_file_colons text line :
  line ∈ readlines text ->
  count_char COLON line ≠ 1%nat ->
  exists w, config_from_file py_int py_float text = Raise (ValueError w).
Proof.
  intros Hin Hc. unfold config_from_file.
  destruct (for_each_raises (config_line py_int py_float)
              (fun e => exists w, e = ValueError w)
              (fun s a e => config_line_raises s a e)
              (readlines text) line Hin
              (fun s => config_line_colons s line Hc) ∅)
    as (e & He & w & ->).
  rewrite He. simpl. eauto.
Qed.
End ConfigFacts.


Lemma recognised_is_field k :
  k ∈ recognised_keys -> k ∈ TrainingConfig_fields.*1.
Proof.
  unfold recognised_keys. rewrite !elem_of_cons, elem_of_nil.
  intros [->|[->|[->|[->|[->|[->|[]]]]]]];
    apply (bool_decide_unpack _); vm_compute; reflexivity.
Qed.

Section LoaderFacts.
Variable py_int : pystr -> option Z.
Variable py_float : pystr -> option float.

(** The loop body leaves the keywords as they are or stores one value,
    under the key of the line, which is then a recognised key. *)
Lemma config_line_ok kwargs line kwargs' :
  config_line py_int py_float kwargs line = Ok kwargs' ->
  kwargs' = kwargs \/
  exists v, kwargs' = <[line_key line := v]> kwargs
            /\ line_key line ∈ recognised_keys.
Proof.
  unfold config_line, line_key.
  destruct (unpack2 (split [COLON] line)) as [[k v]|e0] eqn:Hu; simpl;
    [|discriminate].
  apply unpack2_ok in Hu. rewrite Hu. simpl.
  unfold key_in.
  destruct (bool_decide (strip k ∈ [_; _; _])) eqn:H1.
  { apply bool_decide_eq_true in H1.
    destruct (int_ py_int _); simpl; [|discriminate].
    intros [= <-]. right. eexists. split; [reflexivity|].
    unfold recognised_keys. rewrite !elem_of_cons in *. tauto. }
  clear H1. destruct (bool_decide (strip k ∈ [_; _])) eqn:H2.
  { apply bool_decide_eq_true in H2.
    destruct (float_ py_float _); simpl; [|discriminate].
    intros [= <-]. right. eexists. split; [reflexivity|].
    unfold recognised_keys. rewrite !elem_of_cons in *. tauto. }
  destruct (bool_decide (strip k = _)) eqn:H3; [|intros [= <-]; left; reflexivity].
  apply bool_decide_eq_true in H3.
  destruct (unpack2 (split (py ", ") _)) as [[b1 b2]|e1]; simpl; [|discriminate].
  destruct (float_ py_float (slice_from_1 _)); simpl; [|discriminate].
  destruct (float_ py_float (slice_to_last _)); simpl; [|discriminate].
  intros [= <-]. right. eexists. split; [reflexivity|].
  rewrite H3. unfold recognised_keys. rewrite !elem_of_cons. tauto.
Qed.

(** The keywords collected from a file are recognised keys, found as the
    key of one of its lines. *)
Lemma collected_keys lines kwargs :
  for_each (config_line py_int py_float) ∅ lines = Ok kwargs ->
  forall k, is_Some (kwargs !! k) ->
            k ∈ recognised_keys /\ exists line, line ∈ lines /\ line_key line = k.
Proof.
  apply (for_each_invariant (config_line py_int py_float)
           (fun kw : pyattrs => forall k, is_Some (kw !! k) ->
              k ∈ recognised_keys /\
              exists line, line ∈ lines /\ line_key line = k)).
  - intros s a s' Ha Hs Hb k Hk.
    apply config_line_ok in Hb as [->|(v & -> & Hrec)]; [auto|].
    destruct (decide (line_key a = k)) as [<-|Hne].
    + split; [assumption|]. eauto.
    + rewrite lookup_insert_ne in Hk by assumption. auto.
  - intros k Hk. rewrite lookup_empty in Hk. destruct Hk; discriminate.
Qed.

Lemma TrainingConfig_accepts (kwargs : pyattrs) :
  (forall k, is_Some (kwargs !! k) -> k ∈ recognised_keys) ->
  TrainingConfig kwargs = Ok (kwargs ∪ TrainingConfig_defaults).
Proof.
  intros Hk. unfold TrainingConfig.
  replace (forallb _ _) with true; [reflexivity|].
  symmetry. apply forallb_forall. intros k Hin.
  apply bool_decide_eq_true, recognised_is_field, Hk.
  apply list_elem_of_In in Hin.
  apply list_elem_of_fmap in Hin as ([k' v] & -> & Hin).
  apply elem_of_map_to_list in Hin. simpl. eauto.
Qed.

(** What [config_from_file] returns: the collected keywords over the
    defaults. *)
Lemma config_from_file_ok text cfg :
  config_from_file py_int py_float text = Ok cfg ->
  exists kwargs,
    for_each (config_line py_int py_float) ∅ (readlines text) = Ok kwargs
    /\ cfg = kwargs ∪ TrainingConfig_defaults.
Proof.
  unfold config_from_file.
  destruct (for_each _ _ _) as [kwargs|e] eqn:Hf; simpl; [|discriminate].
  rewrite TrainingConfig_accepts.
  - intros [= <-]. eauto.
  - intros k Hk. eapply collected_keys; eassumption.
Qed.

(** An attribute of a loaded configuration is a field of the dataclass. *)
Lemma loaded_attribute_is_field text cfg name :
  config_from_file py_int py_float text = Ok cfg ->
  is_Some (cfg !! name) -> name ∈ TrainingConfig_fields.*1.
Proof.
  intros Hc Hs. apply config_from_file_ok in Hc as (kwargs & Hf & ->).
  destruct Hs as [v Hv]. apply lookup_union_Some_raw in Hv as [Hv|[_ Hv]].
  - apply recognised_is_field. eapply collected_keys; eauto.
  - unfold TrainingConfig_defaults in Hv.
    apply elem_of_list_to_map_2 in Hv.
    apply list_elem_of_fmap. exists (name, v). auto.
Qed.
End LoaderFacts.

(** A loaded configuration has no attribute beyond the fields. *)
Lemma loaded_config_lacks py_int py_float text cfg name :
  config_from_file py_int py_float text = Ok cfg ->
  name ∉ TrainingConfig_fields.*1 ->
  cfg !! name = None.
Proof.
  intros Hc Hn. destruct (cfg !! name) as [v|] eqn:Hv; [|reflexivity].
  exfalso. apply Hn. eapply loaded_attribute_is_field; eauto.
Qed.

(** ** Stripping *)

Lemma drop_while_absorb (p q : N -> bool) s :
  (forall c, q c = true -> p c = true) ->
  drop_while p (drop_while q s) = drop_while p s.
Proof.
  intros Hqp. induction s as [|c s IH]; simpl; [reflexivity|].
  destruct (q c) eqn:Hq.
  - rewrite (Hqp c Hq). assumption.
  - reflexivity.
Qed.

Lemma drop_while_snoc p l c :
  drop_while p (l ++ [c]) =
  match drop_while p l with
  | [] => if p c then [] else [c]
  | r => r ++ [c]
  end.
Proof.
  induction l as [|a l IH]; simpl; [reflexivity|].
  destruct (p a); [assumption|reflexivity].
Qed.

Lemma rstrip_cons p c s :
  rstrip_with p (c :: s) =
  match rstrip_with p s with
  | [] => if p c then [] else [c]
  | r => c :: r
  end.
Proof.
  unfold rstrip_with. simpl. rewrite drop_while_snoc.
  destruct (drop_while p (rev s)) as [|x r]; simpl.
  - destruct (p c); reflexivity.
  - rewrite rev_app_distr. simpl.
    destruct (rev r ++ [x]) eqn:E; [|reflexivity].
    destruct (rev r); discriminate.
Qed.

Lemma lstrip_rstrip_comm p q s :
  lstrip_with p (rstrip_with q s) = rstrip_with q (lstrip_with p s).
Proof.
  unfold lstrip_with. induction s as [|c s IH]; [reflexivity|].
  rewrite rstrip_cons. simpl drop_while at 2.
  destruct (p c) eqn:Hp.
  - rewrite <- IH. destruct (rstrip_with q s) as [|x r]; simpl.
    + destruct (q c); simpl; [reflexivity|]. rewrite Hp. reflexivity.
    + rewrite Hp. reflexivity.
  - rewrite rstrip_cons. destruct (rstrip_with q s) as [|x r]; simpl.
    + destruct (q c); simpl; [reflexivity|]. rewrite Hp. reflexivity.
    + rewrite Hp. reflexivity.
Qed.

Lemma rstrip_absorb (p q : N -> bool) s :
  (forall c, q c = true -> p c = true) ->
  rstrip_with p (rstrip_with q s) = rstrip_with p s.
Proof.
  intros Hqp. unfold rstrip_with. rewrite rev_involutive.
  rewrite drop_while_absorb by assumption. reflexivity.
Qed.

(** Stripping a smaller class of characters first changes nothing:
    [v.strip("\n").strip()] is [v.strip()]. *)
Lemma strip_with_absorb (p q : N -> bool) s :
  (forall c, q c = true -> p c = true) ->
  strip_with p (strip_with q s) = strip_with p s.
Proof.
  intros Hqp. unfold strip_with.
  rewrite lstrip_rstrip_comm, rstrip_absorb by assumption.
  unfold lstrip_with. rewrite drop_while_absorb by assumption. reflexivity.
Qed.

Lemma strip_newline_first v : strip (strip_chars [NL] v) = strip v.
Proof.
  apply strip_with_absorb. intros c. unfold mem_char. simpl.
  rewrite orb_false_r. intros Hc%N.eqb_eq. subst c. reflexivity.
Qed.

Lemma lstrip_clean p s : ends_clean p s = true -> lstrip_with p s = s.
Proof.
  destruct s as [|c s]; [reflexivity|]. unfold ends_clean, lstrip_with.
  intros [Hc _]%andb_true_iff. simpl. apply negb_true_iff in Hc.
  rewrite Hc. reflexivity.
Qed.

Lemma rstrip_snoc_clean p s c : p c = false -> rstrip_with p (s ++ [c]) = s ++ [c].
Proof.
  intros Hc. unfold rstrip_with. rewrite rev_app_distr. simpl. rewrite Hc.
  simpl. rewrite rev_involutive. reflexivity.
Qed.

Lemma rstrip_clean p s : ends_clean p s = true -> rstrip_with p s = s.
Proof.
  destruct s as [|c s]; [reflexivity|]. unfold ends_clean.
  intros [_ Hl]%andb_true_iff. apply negb_true_iff in Hl.
  assert (Hne : c :: s <> []) by discriminate.
  rewrite (app_removelast_last c Hne) at 1 2.
  apply rstrip_snoc_clean. assumption.
Qed.

Lemma ends_clean_weaken (p q : N -> bool) s :
  (forall c, q c = true -> p c = true) ->
  ends_clean p s = true -> ends_clean q s = true.
Proof.
  intros Hqp. destruct s as [|c s]; [reflexivity|]. unfold ends_clean.
  rewrite !andb_true_iff, !negb_true_iff. intros [H1 H2]. split.
  - destruct (q c) eqn:E; [|reflexivity]. rewrite (Hqp _ E) in H1. discriminate.
  - destruct (q (List.last (c :: s) c)) eqn:E; [|reflexivity].
    rewrite (Hqp _ E) in H2. discriminate.
Qed.

Lemma bracket_not_space c : is_bracket c = true -> is_space c = false.
Proof.
  unfold is_bracket, mem_char, bracket_chars. simpl.
  rewrite !orb_true_iff, !N.eqb_eq.
  intros [->|[->|[->|[->|H]]]]; try reflexivity. discriminate H.
Qed.

Lemma strip_brackets s : strip_chars bracket_chars s = strip_with is_bracket s.
Proof. reflexivity. Qed.

(** The two readings of the first part of a bracketed pair. *)
Lemma betas_first_part o a :
  is_bracket o = true ->
  ends_clean (fun x => is_space x || is_bracket x) a = true ->
  slice_from_1 (strip (o :: a)) = strip_chars bracket_chars (o :: a).
Proof.
  intros Ho Ha.
  assert (Hsp : ends_clean is_space a = true).
  { revert Ha. apply ends_clean_weaken. intros c ->. reflexivity. }
  assert (Hbr : ends_clean is_bracket a = true).
  { revert Ha. apply ends_clean_weaken. intros c ->. apply orb_true_r. }
  pose proof (bracket_not_space o Ho) as Hos.
  rewrite strip_brackets. unfold strip, strip_with, lstrip_with.
  simpl drop_while. rewrite Hos, Ho.
  fold (lstrip_with is_bracket a). rewrite (lstrip_clean _ _ Hbr).
  rewrite (rstrip_clean _ _ Hbr).
  rewrite rstrip_cons, (rstrip_clean _ _ Hsp).
  destruct a; simpl; [rewrite Hos|]; reflexivity.
Qed.

(** The two readings of the second part. *)
Lemma betas_second_part b c :
  is_bracket c = true ->
  ends_clean (fun x => is_space x || is_bracket x) b = true ->
  slice_to_last (strip (b ++ [c])) = strip_chars bracket_chars (b ++ [c]).
Proof.
  intros Hc Hb.
  assert (Hsp : ends_clean is_space b = true).
  { revert Hb. apply ends_clean_weaken. intros x ->. reflexivity. }
  assert (Hbr : ends_clean is_bracket b = true).
  { revert Hb. apply ends_clean_weaken. intros x ->. apply orb_true_r. }
  pose proof (bracket_not_space c Hc) as Hcs.
  assert (Hcode : strip (b ++ [c]) = b ++ [c]).
  { unfold strip, strip_with.
    replace (lstrip_with is_space (b ++ [c])) with (b ++ [c]).
    - apply rstrip_snoc_clean. assumption.
    - unfold lstrip_with. destruct b as [|x b]; simpl.
      + rewrite Hcs. reflexivity.
      + unfold ends_clean in Hsp. apply andb_true_iff in Hsp as [Hx _].
        apply negb_true_iff in Hx. rewrite Hx. reflexivity. }
  rewrite Hcode. unfold slice_to_last.
  rewrite length_app. simpl. rewrite Nat.add_sub.
  rewrite take_app_length.
  rewrite strip_brackets. unfold strip_with.
  rewrite <- lstrip_rstrip_comm.
  unfold rstrip_with at 1. rewrite rev_app_distr. simpl. rewrite Hc.
  fold (rstrip_with is_bracket b). rewrite (rstrip_clean _ _ Hbr).
  rewrite (lstrip_clean _ _ Hbr). reflexivity.
Qed.

(** ** The loader against the documented parse rules *)

Section Refinement.
Variable py_int : pystr -> option Z.
Variable py_float : pystr -> option float.

Lemma valid_betas_parts v :
  valid_betas v = true ->
  exists p1 p2,
    split (py ", ") v = [p1; p2]
    /\ slice_from_1 (strip p1) = strip_chars bracket_chars p1
    /\ slice_to_last (strip p2) = strip_chars bracket_chars p2.
Proof.
  unfold valid_betas.
  destruct (split (py ", ") v) as [|p1 [|p2 [|p3 ps]]]; try discriminate.
  destruct p1 as [|o a]; [discriminate|].
  destruct (rev p2) as [|c rb] eqn:Hrev; [discriminate|].
  rewrite !andb_true_iff. intros [[[Ho Hc] Ha] Hb].
  assert (Hp2 : p2 = rev rb ++ [c]).
  { rewrite <- (rev_involutive p2), Hrev. reflexivity. }
  exists (o :: a), p2. split; [reflexivity|]. split.
  - apply betas_first_part; assumption.
  - rewrite Hp2. apply betas_second_part; assumption.
Qed.

(** On a valid line the loop body does what the rules say. *)
Lemma config_line_refines kwargs line :
  valid_line line = true ->
  config_line py_int py_float kwargs line
  = rule_line py_int py_float kwargs line.
Proof.
  unfold valid_line, config_line, rule_line, rule_value.
  destruct (split [COLON] line) as [|k [|v [|x rest]]]; try discriminate.
  simpl unpack2. simpl join. cbn [mbind result_bind].
  rewrite strip_newline_first.
  destruct (key_in (strip k) [_; _; _]).
  { intros _. destruct (int_ py_int (strip v)); reflexivity. }
  destruct (key_in (strip k) [_; _]).
  { intros _. destruct (float_ py_float (strip v)); reflexivity. }
  destruct (bool_decide (strip k = py "betas")); [|reflexivity].
  intros (p1 & p2 & Hs & H1 & H2)%valid_betas_parts.
  rewrite Hs. simpl unpack2. cbn [mbind result_bind].
  rewrite H1, H2.
  destruct (float_ py_float (strip_chars bracket_chars p1)); [|reflexivity].
  cbn [mbind result_bind].
  destruct (float_ py_float (strip_chars bracket_chars p2)); reflexivity.
Qed.

Lemma config_from_file_refines text :
  valid_config_text text = true ->
  config_from_file py_int py_float text = rule_config py_int py_float text.
Proof.
  intros Hv. unfold config_from_file, rule_config.
  assert (Hloop : for_each (config_line py_int py_float) ∅ (readlines text)
                  = for_each (rule_line py_int py_float) ∅ (readlines text)).
  { apply for_each_ext. intros s a Ha. apply config_line_refines.
    unfold valid_config_text in Hv.
    rewrite forallb_forall in Hv. apply Hv, list_elem_of_In, Ha. }
  rewrite <- Hloop.
  destruct (for_each (config_line py_int py_float) ∅ (readlines text))
    as [kwargs|e] eqn:Hf; [|reflexivity].
  cbn [mbind result_bind]. apply TrainingConfig_accepts.
  intros k Hk. eapply collected_keys; eassumption.
Qed.
End Refinement.

(** ** Claims on the configuration loader *)

(** C5.  For every valid configuration file (one [key: value] pair per
    line, a [betas] value written as a bracketed pair), [config_from_file]
    returns what the documented rules give: [max_epochs], [batch_size] and
    [num_workers] parsed as integers, [learning_rate] and [weight_decay] as
    floats, [betas] split on [", "] with the enclosing brackets stripped and
    each part parsed as a float.  In particular the line
    [betas: (0.9, 0.95)] yields the pair (0.9, 0.95). *)
Theorem config_from_file_follows_rules
    (py_int : pystr -> option Z) (py_float : pystr -> option float) :
  (forall text,
      valid_config_text text = true ->
      config_from_file py_int py_float text = rule_config py_int py_float text)
  /\ (py_float (py "0.9") = Some 0.9%float ->
      py_float (py "0.95") = Some 0.95%float ->
      config_from_file py_int py_float (py "betas: (0.9, 0.95)")
      = Ok (<[py "betas" := VTuple [VFloat 0.9; VFloat 0.95]]>
              TrainingConfig_defaults)).
Proof.
  split.
  - apply config_from_file_refines.
  - intros H1 H2. vm_compute in H1, H2. vm_compute.
    rewrite H1, H2. reflexivity.
Qed.

Lemma config_from_file_follows_rules_witness :
  valid_config_text
    (file_of_lines [py "max_epochs: 3"; py "learning_rate: 0.001";
                    py "betas: (0.9, 0.95)"]) = true
  /\ config_from_file int_decimal float_decimal
       (file_of_lines [py "max_epochs: 3"; py "learning_rate: 0.001";
                       py "betas: (0.9, 0.95)"])
     = Ok (<[py "max_epochs" := VInt 3]>
           (<[py "learning_rate" := VFloat 0.001]>
           (<[py "betas" := VTuple [VFloat 0.9; VFloat 0.95]]>
              TrainingConfig_defaults))).
Proof.
  split; [vm_compute; reflexivity|].
  rewrite (proj1 (config_from_file_follows_rules int_decimal float_decimal));
    vm_compute; reflexivity.
Defined.

(** C6.  A configuration file with a line that holds no [:] makes
    [config_from_file] fail with a parsing error (a [ValueError]); no
    configuration is returned. *)
Theorem line_without_colon_fails
    (py_int : pystr -> option Z) (py_float : pystr -> option float)
    (text line : pystr) :
  line ∈ readlines text ->
  COLON ∉ line ->
  exists w, config_from_file py_int py_float text = Raise (ValueError w).
Proof.
  intros Hin Hc. apply (config_from_file_colons _ _ _ line Hin).
  rewrite count_char_not_elem by assumption. discriminate.
Qed.

Lemma line_without_colon_fails_witness :
  exists w,
    config_from_file int_decimal float_decimal
      (file_of_lines [py "max_epochs: 3"; py "batch_size 2"])
    = Raise (ValueError w).
Proof.
  apply (line_without_colon_fails int_decimal float_decimal _
           (py "batch_size 2" ++ [NL])).
  - apply list_elem_of_In. vm_compute. right. left. reflexivity.
  - not_in_list.
Defined.

(** C7.  A field that no line of the file names keeps the default of the
    dataclass: max_epochs 10, batch_size 64, learning_rate 1e-4, betas
    (0.9, 0.95), weight_decay 0.1, ckpt_path unset ([None]),
    num_workers 0. *)
Theorem absent_field_keeps_default
    (py_int : pystr -> option Z) (py_float : pystr -> option float)
    (text : pystr) (cfg : pyattrs) (field : pystr) (d : pyval) :
  config_from_file py_int py_float text = Ok cfg ->
  (field, d) ∈ [ (py "max_epochs", VInt 10);
                 (py "batch_size", VInt 64);
                 (py "learning_rate", VFloat 1e-4);
                 (py "betas", VTuple [VFloat 0.9; VFloat 0.95]);
                 (py "weight_decay", VFloat 0.1);
                 (py "ckpt_path", VNone);
                 (py "num_workers", VInt 0) ] ->
  (forall line, line ∈ readlines text -> line_key line ≠ field) ->
  cfg !! field = Some d.
Proof.
  intros Hc Hd Habs.
  apply config_from_file_ok in Hc as (kwargs & Hf & ->).
  assert (Hnone : kwargs !! field = None).
  { destruct (kwargs !! field) as [v|] eqn:Hv; [|reflexivity].
    destruct (collected_keys _ _ _ _ Hf field) as (_ & line & Hin & Hk);
      [eauto|].
    exfalso. apply (Habs line Hin Hk). }
  rewrite lookup_union_r by assumption.
  rewrite !elem_of_cons, elem_of_nil in Hd.
  destruct Hd as [Hd|[Hd|[Hd|[Hd|[Hd|[Hd|[Hd|[]]]]]]]];
    injection Hd as -> ->; vm_compute; reflexivity.
Qed.

Lemma absent_field_keeps_default_witness :
  config_from_file int_decimal float_decimal (py "max_epochs: 3")
  = Ok (<[py "max_epochs" := VInt 3]> TrainingConfig_defaults)
  /\ (<[py "max_epochs" := VInt 3]> TrainingConfig_defaults : pyattrs)
     !! py "batch_size" = Some (VInt 64).
Proof.
  split; [vm_compute; reflexivity|].
  apply (absent_field_keeps_default int_decimal float_decimal
           (py "max_epochs: 3")).
  - vm_compute. reflexivity.
  - right. left.
  - intros line Hin Hk. apply list_elem_of_In in Hin. vm_compute in Hin.
    destruct Hin as [<-|[]]. vm_compute in Hk. discriminate Hk.
Defined.

(** C10.  [config_from_file] fails on every line whose number of [:] is
    not exactly one: a line with none (a blank line among them) and a line
    whose value itself holds a colon both end the parse with a
    [ValueError]. *)
Theorem line_colon_count_fails
    (py_int : pystr -> option Z) (py_float : pystr -> option float)
    (text line : pystr) :
  line ∈ readlines text ->
  count_char COLON line ≠ 1%nat ->
  exists w, config_from_file py_int py_float text = Raise (ValueError w).
Proof. apply config_from_file_colons. Qed.

Lemma line_colon_count_fails_witness :
  count_char COLON (py "ckpt_path: C:/ckpts" ++ [NL]) = 2%nat
  /\ exists w,
       config_from_file int_decimal float_decimal
         (file_of_lines [py "max_epochs: 3"; py "ckpt_path: C:/ckpts"])
       = Raise (ValueError w).
Proof.
  split; [reflexivity|].
  apply (line_colon_count_fails int_decimal float_decimal _
           (py "ckpt_path: C:/ckpts" ++ [NL])).
  - apply list_elem_of_In. vm_compute. right. left. reflexivity.
  - vm_compute. discriminate.
Defined.

(** A blank line ends the parse, too. *)
Example blank_line_fails :
  config_from_file int_decimal float_decimal
    (file_of_lines [py "max_epochs: 3"; []])
  = Raise (ValueError NotEnoughValuesToUnpack).
Proof. vm_compute. reflexivity. Qed.

(** A value with a colon in it ends the parse. *)
Example colon_in_value_fails :
  config_from_file int_decimal float_decimal (py "ckpt_path: C:/ckpts")
  = Raise (ValueError TooManyValuesToUnpack).
Proof. vm_compute. reflexivity. Qed.

(** X5.  A line with a key that is not recognised is ignored: the loop
    body stores nothing. *)
Theorem unrecognised_key_ignored
    (py_int : pystr -> option Z) (py_float : pystr -> option float)
    (kwargs : pyattrs) (line : pystr) :
  count_char COLON line = 1%nat ->
  line_key line ∉ recognised_keys ->
  config_line py_int py_float kwargs line = Ok kwargs.
Proof.
  intros Hc Hk.
  destruct (config_line py_int py_float kwargs line) as [kwargs'|e] eqn:Hl.
  - apply config_line_ok in Hl as [->|(v & _ & Hrec)]; [reflexivity|].
    contradiction.
  - exfalso. revert Hl. unfold config_line.
    pose proof (split_single_length COLON line) as Hlen. rewrite Hc in Hlen.
    unfold line_key in Hk. unfold recognised_keys in Hk.
    destruct (split [COLON] line) as [|k [|v [|x rest]]]; try discriminate.
    simpl in Hk. simpl unpack2. cbn [mbind result_bind]. unfold key_in.
    rewrite !not_elem_of_cons in Hk.
    destruct Hk as (H1 & H2 & H3 & H4 & H5 & H6 & _).
    rewrite bool_decide_eq_false_2
      by (rewrite !elem_of_cons, elem_of_nil; tauto).
    rewrite bool_decide_eq_false_2
      by (rewrite !elem_of_cons, elem_of_nil; tauto).
    rewrite bool_decide_eq_false_2 by assumption. discriminate.
Qed.

Lemma unrecognised_key_ignored_witness :
  config_line int_decimal float_decimal ∅ (py "checkpoint_every_n: 1") = Ok ∅.
Proof.
  apply unrecognised_key_ignored; [reflexivity|not_in_list].
Defined.

(** X6.  [ckpt_path] is no key of the loader: whatever the file holds, the
    checkpoint path of a loaded configuration is unset. *)
Theorem loaded_ckpt_path_unset
    (py_int : pystr -> option Z) (py_float : pystr -> option float)
    (text : pystr) (cfg : pyattrs) :
  config_from_file py_int py_float text = Ok cfg ->
  cfg !! py "ckpt_path" = Some VNone.
Proof.
  intros Hc. apply config_from_file_ok in Hc as (kwargs & Hf & ->).
  assert (Hnone : kwargs !! py "ckpt_path" = None).
  { destruct (kwargs !! py "ckpt_path") as [v|] eqn:Hv; [|reflexivity].
    exfalso.
    destruct (collected_keys _ _ _ _ Hf (py "ckpt_path")) as (Hrec & _);
      [eauto|].
    revert Hrec. not_in_list. }
  rewrite lookup_union_r by assumption. vm_compute. reflexivity.
Qed.

Lemma loaded_ckpt_path_unset_witness :
  config_from_file int_decimal float_decimal (py "ckpt_path: ckpts")
  = Ok TrainingConfig_defaults
  /\ (TrainingConfig_defaults : pyattrs) !! py "ckpt_path" = Some VNone.
Proof.
  assert (Hc : config_from_file int_decimal float_decimal (py "ckpt_path: ckpts")
               = Ok TrainingConfig_defaults) by (vm_compute; reflexivity).
  split; [exact Hc|].
  exact (loaded_ckpt_path_unset int_decimal float_decimal _ _ Hc).
Defined.

(** Without the brackets the first character of the first number and the
    last character of the second are dropped all the same. *)
Example betas_without_brackets :
  config_from_file int_decimal float_decimal (py "betas: 0.9, 0.95")
  = Ok (<[py "betas" := VTuple [VFloat 0.9; VFloat 0.9]]>
          TrainingConfig_defaults).
Proof. vm_compute. reflexivity. Qed.

(** ** Traces of the training loop *)

Lemma emits_ret {E A} (Q : E -> Prop) (a : A) : emits Q (mret a : io E A).
Proof. intros t. exists []. rewrite app_nil_r. split; [reflexivity|constructor]. Qed.

Lemma emits_lift {E A} (Q : E -> Prop) (r : result A) : emits Q (lift r : io E A).
Proof. intros t. exists []. rewrite app_nil_r. split; [reflexivity|constructor]. Qed.

Lemma emits_call {M B} (Q : event M B -> Prop) outcome (e : event M B) :
  Q e -> emits Q (call M B outcome e).
Proof.
  intros He t. unfold call. destruct (outcome t e).
  - exists [e]. split; [reflexivity|]. repeat constructor. exact He.
  - exists []. rewrite app_nil_r. split; [reflexivity|constructor].
Qed.

(** With collaborators that raise nothing every call returns. *)
Lemma call_returns {M B} outcome (e : event M B) t :
  (forall t e, outcome t e = Ok tt) -> call M B outcome e t = (t ++ [e], Ok tt).
Proof. intros H. unfold call. rewrite H. reflexivity. Qed.

Lemma emits_bind {E A B} (Q : E -> Prop) (m : io E A) (f : A -> io E B) :
  emits Q m ->
  (forall a t, (m t).2 = Ok a -> emits Q (f a)) ->
  emits Q (m ≫= f).
Proof.
  intros Hm Hf t. unfold mbind, io_bind.
  destruct (Hm t) as (new & Ht & Hnew).
  destruct (m t) as [t' [a|e]] eqn:Hmt; simpl in Ht; subst t'.
  - assert (Ha : (m t).2 = Ok a) by (rewrite Hmt; reflexivity).
    destruct (Hf a t Ha (t ++ new)) as (new' & Ht' & Hnew').
    exists (new ++ new'). rewrite Ht', app_assoc. split; [reflexivity|].
    apply Forall_app. split; assumption.
  - exists new. split; [reflexivity|assumption].
Qed.

Lemma emits_for {E S A} (Q : E -> Prop) (body : S -> A -> io E S) l :
  (forall s a, emits Q (body s a)) -> forall s, emits Q (io_for body s l).
Proof.
  intros Hb. induction l as [|a l IH]; intros s; simpl.
  - apply emits_ret.
  - apply emits_bind; [apply Hb|]. intros s' _ _. apply IH.
Qed.




Section TrainFacts.
Variable Model : Type.
Variable Batch : Type.
Variable optimiser_step : Model -> Batch -> Model.
Variable outcome : list (event Model Batch) -> event Model Batch -> result unit.
Variable format_ : pyval -> pystr.
Variable float_mod_is_zero : Z -> float -> result bool.


End TrainFacts.

(** ** Claims on the training loop *)

(** C1.  The claim asks that a configuration with [max_epochs: 1],
    [batch_size: 2], [checkpoint_every_n: 1] and a dataset of four examples
    give two optimiser steps and a checkpoint.  The loop reads
    [log_every_n], [num_epochs] and [checkpoint_every_n], three attributes
    that no configuration returned by [config_from_file] has: on every such
    configuration it raises an [AttributeError] right after opening the
    tracking session, before any forward pass (and when the tracking
    service refuses the session, that exception ends the run, before any
    call has returned). *)
Theorem train_rejects_loaded_config
    (py_int : pystr -> option Z) (py_float : pystr -> option float)
    (Model Batch : Type) (optimiser_step : Model -> Batch -> Model)
    (outcome : list (event Model Batch) -> event Model Batch -> result unit)
    (format_ : pyval -> pystr) (float_mod_is_zero : Z -> float -> result bool)
    (text : pystr) (cfg : pyattrs)
    (model : Model) (train_dataloader : list Batch) (run_id : pystr) :
  config_from_file py_int py_float text = Ok cfg ->
  run_train Model Batch optimiser_step outcome format_ float_mod_is_zero
            model train_dataloader cfg run_id
  = match outcome [] (WandbInit (asdict cfg)) with
    | Ok _ =>
        ([WandbInit (asdict cfg)],
         Raise (AttributeError (py "TrainingConfig") (py "log_every_n")))
    | Raise e => ([], Raise e)
    end.
Proof.
  intros Hc.
  assert (Hnone : cfg !! py "log_every_n" = None).
  { eapply loaded_config_lacks; [exact Hc|not_in_list]. }
  unfold run_train, train, call, getattr, mbind, io_bind.
  destruct (outcome [] (WandbInit (asdict cfg))); [|reflexivity].
  rewrite Hnone. reflexivity.
Qed.

Lemma train_rejects_loaded_config_witness :
  exists cfg,
    config_from_file int_decimal float_decimal
      (file_of_lines [py "max_epochs: 1"; py "batch_size: 2";
                      py "checkpoint_every_n: 1"]) = Ok cfg
    /\ run_train nat (list nat) (fun m _ => S m) calls_return format_path
                 float_mod_unused 0%nat [[0; 1]; [2; 3]]%nat cfg (py "r1")
       = ([WandbInit (asdict cfg)],
          Raise (AttributeError (py "TrainingConfig") (py "log_every_n")))
    /\ forward_passes
         (run_train nat (list nat) (fun m _ => S m) calls_return format_path
                    float_mod_unused 0%nat [[0; 1]; [2; 3]]%nat cfg
                    (py "r1")).1 = 0%nat
    /\ saved_files
         (run_train nat (list nat) (fun m _ => S m) calls_return format_path
                    float_mod_unused 0%nat [[0; 1]; [2; 3]]%nat cfg
                    (py "r1")).1 = [].
Proof.
  exists (<[py "max_epochs" := VInt 1]>
          (<[py "batch_size" := VInt 2]> TrainingConfig_defaults)).
  assert (Hc : config_from_file int_decimal float_decimal
                 (file_of_lines [py "max_epochs: 1"; py "batch_size: 2";
                                 py "checkpoint_every_n: 1"])
               = Ok (<[py "max_epochs" := VInt 1]>
                     (<[py "batch_size" := VInt 2]> TrainingConfig_defaults)))
    by (vm_compute; reflexivity).
  split; [exact Hc|].
  rewrite (train_rejects_loaded_config int_decimal float_decimal
             nat (list nat) (fun m _ => S m) calls_return format_path
             float_mod_unused _ _ 0%nat [[0; 1]; [2; 3]]%nat (py "r1") Hc).
  repeat split; reflexivity.
Defined.

(** X1.  On a configuration object that carries the attributes the loop
    reads, with [num_epochs] 1 and [checkpoint_every_n] 1, and with
    collaborators that raise nothing (the checkpoint directory exists, the
    tracking service takes the logging frequency), a loader of two batches
    gives exactly two forward passes and one checkpoint, written after the
    second batch. *)
Theorem train_two_batches
    (Model Batch : Type) (optimiser_step : Model -> Batch -> Model)
    (outcome : list (event Model Batch) -> event Model Batch -> result unit)
    (format_ : pyval -> pystr) (float_mod_is_zero : Z -> float -> result bool)
    (config : pyattrs) (log_freq ckpt_path : pyval)
    (model : Model) (b1 b2 : Batch) (run_id : pystr) :
  (forall t e, outcome t e = Ok tt) ->
  config !! py "log_every_n" = Some log_freq ->
  config !! py "num_epochs" = Some (VInt 1) ->
  config !! py "checkpoint_every_n" = Some (VInt 1) ->
  config !! py "ckpt_path" = Some ckpt_path ->
  let final := optimiser_step (optimiser_step model b1) b2 in
  let run := run_train Model Batch optimiser_step outcome format_
                       float_mod_is_zero model [b1; b2] config run_id in
  run.2 = Ok final
  /\ forward_passes run.1 = 2%nat
  /\ saved_files run.1 = [(model_path format_ ckpt_path run_id, final)].
Proof.
  intros Hout Hl Hn Hk Hp. unfold run_train, train, train_batch.
  repeat (unfold mbind, io_bind, lift, mret, io_ret, getattr;
          cbn -[py lookup call];
          change (Z.to_nat 1) with 1%nat;
          rewrite ?(call_returns _ _ _ Hout), ?Hl, ?Hn, ?Hk, ?Hp, ?Z.mod_1_r).
  repeat split; reflexivity.
Qed.

Lemma train_two_batches_witness :
  (counting_run (loop_config 1 1) [0; 1]%nat).2 = Ok 2%nat
  /\ forward_passes (counting_run (loop_config 1 1) [0; 1]%nat).1 = 2%nat
  /\ saved_files (counting_run (loop_config 1 1) [0; 1]%nat).1
     = [(model_path format_path (VStr (py "ckpts")) (py "r1"), 2%nat)].
Proof.
  apply (train_two_batches nat nat (fun m _ => S m) calls_return format_path
           float_mod_unused (loop_config 1 1) (VInt 1) (VStr (py "ckpts"))
           0%nat 0%nat 1%nat (py "r1"));
    try (vm_compute; reflexivity).
Defined.

(** When [torch.save] raises, on a checkpoint directory that does not
    exist, the run ends at the first checkpoint and returns no model. *)
Example train_save_fails :
  run_train nat nat (fun m _ => S m) save_fails format_path float_mod_unused
            0%nat [0; 1]%nat (loop_config 1 1) (py "r1")
  = ([WandbInit (asdict (loop_config 1 1)); WandbWatch (VInt 1); ModelTrain;
      Forward 0 0%nat; ZeroGrad; Backward; OptimiserStep;
      Forward 1 1%nat; ZeroGrad; Backward; OptimiserStep],
     Raise (OtherError (py "RuntimeError"))).
Proof. vm_compute. reflexivity. Qed.






(** ** Claims on the model factory *)

Lemma Embedding_ok n d e :
  Embedding n d = Ok e ->
  exists n' d', n = OInt n' /\ d = OInt d' /\ e = OEmbedding n' d'.
Proof.
  destruct n, d; simpl; try discriminate. intros [= <-]. eauto.
Qed.

(** What a call of [create_model] that returns has done. *)
Lemma create_model_ok hub model_type tokeniser model :
  create_model hub model_type = Ok (tokeniser, model) ->
  exists tok0 model0 wte0 dim cls attrs,
    GPT2Tokenizer_from_pretrained hub model_type = Ok tok0
    /\ GPT2LMHeadModel_from_pretrained hub model_type = Ok model0
    /\ obj_getattr model0 (py "wte") = Ok wte0
    /\ obj_getattr wte0 (py "embedding_dim") = Ok (OInt dim)
    /\ model0 = OModule cls attrs
    /\ tokeniser = OTokenizer (add_pad_token (py "[PAD]") tok0)
    /\ model = OModule cls
                 (assoc_set (py "wte")
                    (OEmbedding (Z.of_nat (vocab_size tok0) + 1) dim) attrs).
Proof.
  unfold create_model.
  destruct (GPT2Tokenizer_from_pretrained hub model_type) as [tok0|] eqn:Ht;
    [|discriminate].
  cbn [mbind result_bind].
  destruct (GPT2LMHeadModel_from_pretrained hub model_type) as [model0|] eqn:Hm;
    [|discriminate].
  cbn [mbind result_bind].
  destruct (obj_getattr model0 (py "wte")) as [wte0|] eqn:Hw; [|discriminate].
  cbn [mbind result_bind].
  destruct (obj_getattr wte0 (py "embedding_dim")) as [dim|] eqn:Hd;
    [|discriminate].
  cbn [mbind result_bind].
  destruct (Embedding _ dim) as [emb|] eqn:He; [|discriminate].
  apply Embedding_ok in He as (n' & d' & [= <-] & -> & ->).
  cbn [mbind result_bind].
  destruct model0 as [| | |cls attrs|]; try discriminate.
  simpl. intros [= <- <-].
  exists tok0, (OModule cls attrs), wte0, d', cls, attrs. repeat split; auto.
Qed.

(** C2.  The claim asks that the tokenizer returned hold one token more
    and the model returned a token-embedding table of that size.  The
    factory loads a [GPT2LMHeadModel] and reads [model.wte] on it, an
    attribute that this class keeps under [model.transformer]: for every
    model identifier the read raises an [AttributeError] (unless loading the
    tokenizer or the model has raised before), and the factory returns
    neither a tokenizer nor a model. *)
Theorem create_model_never_returns (hub : Hub) (model_type : pystr) :
  (forall model,
      GPT2LMHeadModel_from_pretrained hub model_type = Ok model ->
      is_GPT2LMHeadModel model = true) ->
  exists e,
    create_model hub model_type = Raise e
    /\ (e = AttributeError (py "GPT2LMHeadModel") (py "wte")
        \/ GPT2Tokenizer_from_pretrained hub model_type = Raise e
        \/ GPT2LMHeadModel_from_pretrained hub model_type = Raise e).
Proof.
  intros Hcls. unfold create_model.
  destruct (GPT2Tokenizer_from_pretrained hub model_type) as [tok0|e] eqn:Ht;
    [|exists e; split; [reflexivity|right; left; reflexivity]].
  cbn [mbind result_bind].
  destruct (GPT2LMHeadModel_from_pretrained hub model_type) as [model0|e]
    eqn:Hm; [|exists e; split; [reflexivity|right; right; reflexivity]].
  cbn [mbind result_bind].
  specialize (Hcls model0 eq_refl).
  destruct model0 as [| | |cls attrs|]; try discriminate Hcls.
  simpl in Hcls. rewrite !andb_true_iff in Hcls.
  destruct Hcls as [[[Hc _] _] Hw]. apply bool_decide_eq_true in Hc as ->.
  unfold has_attr in Hw. simpl.
  destruct (assoc_get (py "wte") attrs); [discriminate Hw|].
  eexists. split; [reflexivity|left; reflexivity].
Qed.

Lemma create_model_never_returns_witness :
  exists e,
    create_model lm_head_hub (py "gpt2-medium") = Raise e
    /\ (e = AttributeError (py "GPT2LMHeadModel") (py "wte")
        \/ GPT2Tokenizer_from_pretrained lm_head_hub (py "gpt2-medium")
           = Raise e
        \/ GPT2LMHeadModel_from_pretrained lm_head_hub (py "gpt2-medium")
           = Raise e).
Proof.
  apply (create_model_never_returns lm_head_hub (py "gpt2-medium")).
  intros model [= <-]. reflexivity.
Defined.

(** X2.  The factory reads and replaces the attribute [wte] of the loaded
    model itself.  A model that has no [wte] of its own (one with a
    language-modelling head keeps its embedding tables under its
    [transformer], where [train_light.py] reads [model.transformer.wpe])
    makes the factory raise an [AttributeError] instead of returning. *)
Theorem create_model_without_wte
    (hub : Hub) (model_type : pystr) (tok0 : Tokenizer)
    (cls : pystr) (attrs : list (pystr * pyobj)) :
  GPT2Tokenizer_from_pretrained hub model_type = Ok tok0 ->
  GPT2LMHeadModel_from_pretrained hub model_type = Ok (OModule cls attrs) ->
  assoc_get (py "wte") attrs = None ->
  create_model hub model_type = Raise (AttributeError cls (py "wte")).
Proof.
  intros Ht Hm Hw. unfold create_model. rewrite Ht. cbn [mbind result_bind].
  rewrite Hm. cbn [mbind result_bind]. simpl. rewrite Hw. reflexivity.
Qed.

Lemma create_model_without_wte_witness :
  create_model lm_head_hub (py "gpt2")
  = Raise (AttributeError (py "GPT2LMHeadModel") (py "wte")).
Proof.
  apply (create_model_without_wte lm_head_hub (py "gpt2") tiny_tokenizer
           (py "GPT2LMHeadModel")
           [(py "transformer", bare_model);
            (py "lm_head", OModule (py "Linear") [])]);
    reflexivity.
Defined.

(** ** Claims on the parameter count *)

Lemma py_sum_method cls name rest :
  exists what, py_sum (OMethod cls name :: rest) = Raise (TypeError what).
Proof. unfold py_sum. simpl. eauto. Qed.

(** C4.  The claim asks for the sum of the element counts of the trainable
    parameters.  [count_parameters] adds up the attribute [numel] of each of
    them without calling it: as soon as one parameter requires gradients the
    sum is of a method object and an integer, a [TypeError]. *)
Theorem count_parameters_raises (parameters : list ParamTensor) (p : ParamTensor) :
  p ∈ parameters ->
  requires_grad p = true ->
  exists what, count_parameters parameters = Raise (TypeError what).
Proof.
  intros Hin Hg. unfold count_parameters.
  assert (Hf : p ∈ filter (fun p => requires_grad p = true) parameters).
  { apply list_elem_of_filter. split; assumption. }
  destruct (filter _ parameters) as [|q l]; [inversion Hf|].
  simpl. apply py_sum_method.
Qed.

Lemma count_parameters_raises_witness :
  trainable_parameter_count [ {| shape := [2; 3]; requires_grad := true |} ] = 6
  /\ exists what,
       count_parameters [ {| shape := [2; 3]; requires_grad := true |} ]
       = Raise (TypeError what).
Proof.
  split; [reflexivity|].
  apply (count_parameters_raises _ {| shape := [2; 3]; requires_grad := true |}).
  - left.
  - reflexivity.
Defined.

(** Only a model without trainable parameters gets a count. *)
Lemma count_parameters_frozen (parameters : list ParamTensor) :
  Forall (fun p => requires_grad p = false) parameters ->
  count_parameters parameters = Ok (OInt 0).
Proof.
  intros Hall. unfold count_parameters.
  replace (filter _ parameters) with (@nil ParamTensor); [reflexivity|].
  symmetry. induction Hall as [|p l Hp _ IH]; [reflexivity|].
  rewrite filter_cons_False by congruence. exact IH.
Qed.

(** ** Claims on the tag extractor *)

(** X4.  [extract_tag] raises its [ValueError] when the name of the tag is
    not a substring of the input. *)
Theorem extract_tag_guard fromstring find_path input tag :
  contains tag input = false ->
  extract_tag fromstring find_path input tag = Raise (ValueError TagNotPresent).
Proof. intros H. unfold extract_tag. rewrite H. reflexivity. Qed.

Lemma extract_tag_guard_witness :
  extract_tag xml_fromstring (fun _ _ => None) (py "<move>e4</move>") (py "score")
  = Raise (ValueError TagNotPresent).
Proof. apply extract_tag_guard. vm_compute. reflexivity. Defined.

(** With the name in the input, the first child of that name gives the
    result. *)
Lemma extract_tag_child fromstring find_path input tag root e :
  contains tag input = true ->
  plain_path tag = true ->
  fromstring (py "<root>" ++ input ++ py "</root>") = Ok root ->
  first_child tag (Element_children root) = Some e ->
  extract_tag fromstring find_path input tag = Ok (Element_text e).
Proof.
  intros Hc Hp Hr Hf. unfold extract_tag, Element_find.
  rewrite Hc, Hr. simpl. rewrite Hp, Hf. reflexivity.
Qed.

(** C8.  The claim asks for a [ValueError] exactly when the tag is absent.
    The guard only looks for the name as a substring of the input: when the
    name occurs in the input but no child element bears it, the parse finds
    no element and reading its text raises an [AttributeError]. *)
Theorem extract_tag_name_without_element
    (fromstring : pystr -> result Element)
    (find_path : Element -> pystr -> option Element)
    (input tag : pystr) (root : Element) :
  contains tag input = true ->
  plain_path tag = true ->
  fromstring (py "<root>" ++ input ++ py "</root>") = Ok root ->
  first_child tag (Element_children root) = None ->
  extract_tag fromstring find_path input tag
  = Raise (AttributeError (py "NoneType") (py "text")).
Proof.
  intros Hc Hp Hr Hf. unfold extract_tag, Element_find.
  rewrite Hc, Hr. simpl. rewrite Hp, Hf. reflexivity.
Qed.

Lemma extract_tag_name_without_element_witness :
  xml_fromstring (py "<root>no move here</root>")
  = Ok (Elem (py "root") (Some (py "no move here")) None [])
  /\ extract_tag xml_fromstring (fun _ _ => None) (py "no move here") (py "move")
     = Raise (AttributeError (py "NoneType") (py "text")).
Proof.
  split; [vm_compute; reflexivity|].
  apply (extract_tag_name_without_element xml_fromstring (fun _ _ => None)
           (py "no move here") (py "move")
           (Elem (py "root") (Some (py "no move here")) None []));
    vm_compute; reflexivity.
Defined.

(** The first example of the specification. *)
Example extract_tag_move :
  extract_tag xml_fromstring (fun _ _ => None) (py "<move>e4</move>") (py "move")
  = Ok (Some (py "e4")).
Proof. vm_compute. reflexivity. Qed.

(** An element of that name below another element is not found either. *)
Example extract_tag_nested :
  extract_tag xml_fromstring (fun _ _ => None)
    (py "<game><move>e4</move></game>") (py "move")
  = Raise (AttributeError (py "NoneType") (py "text")).
Proof. vm_compute. reflexivity. Qed.

(** ** Claims on the data pipelines *)

Lemma index_of_elem tok vocab : tok ∈ vocab -> is_Some (index_of tok vocab).
Proof.
  induction vocab as [|t vocab IH]; intros Hin; [inversion Hin|]. simpl.
  destruct (bool_decide (t = tok)) eqn:E; [eauto|].
  apply bool_decide_eq_false in E.
  apply elem_of_cons in Hin as [->|Hin]; [contradiction|].
  destruct (IH Hin) as [n ->]. simpl. eauto.
Qed.

Lemma add_pad_token_id tok t :
  is_Some (pad_token (add_pad_token tok t) ≫= token_id (add_pad_token tok t)).
Proof.
  simpl. unfold token_id. simpl. apply index_of_elem.
  destruct (bool_decide (tok ∈ encoder t ++ added_tokens t)) eqn:E.
  - apply bool_decide_eq_true in E. exact E.
  - rewrite !elem_of_app. right. right. left.
Qed.

Lemma tokenizer_call_length t text n ids :
  tokenizer_call t text n = Ok ids -> length ids = n.
Proof.
  unfold tokenizer_call. destruct (pad_token t ≫= token_id t); [|discriminate].
  intros [= <-]. rewrite length_app, length_replicate, length_take. lia.
Qed.

(** X3.  The pipeline of [preprocess_data], once built, pads or cuts
    every text to 1024 tokens. *)
Theorem preprocess_data_length load_dataset tokeniser config dl text :
  preprocess_data load_dataset tokeniser config = Ok dl ->
  exists ids, dl_map dl text = Ok ids /\ length ids = 1024%nat.
Proof.
  unfold preprocess_data.
  destruct (getattr _ config (py "dataset")) as [name|]; [|discriminate].
  cbn [mbind result_bind].
  destruct (load_dataset name) as [dataset|]; [|discriminate].
  cbn [mbind result_bind].
  destruct (getattr _ config (py "batch_size")) as [bs|]; [|discriminate].
  cbn [mbind result_bind]. intros [= <-]. cbn [dl_map].
  destruct (tokenizer_call (add_pad_token (py "[PAD]") tokeniser) text 1024)
    as [ids|e] eqn:Hc.
  - exists ids. split; [reflexivity|]. eapply tokenizer_call_length, Hc.
  - exfalso. unfold tokenizer_call in Hc.
    destruct (add_pad_token_id (py "[PAD]") tokeniser) as [pad Hpad].
    rewrite Hpad in Hc. discriminate.
Qed.

Lemma preprocess_data_length_witness :
  exists dl ids,
    preprocess_data (fun _ => Ok [py "ab"; py "ba"]) tiny_tokenizer
      (<[py "dataset" := VStr (py "games")]> TrainingConfig_defaults) = Ok dl
    /\ dl_map dl (py "ab") = Ok ids /\ length ids = 1024%nat.
Proof.
  destruct (preprocess_data (fun _ => Ok [py "ab"; py "ba"]) tiny_tokenizer
              (<[py "dataset" := VStr (py "games")]> TrainingConfig_defaults))
    as [dl|e] eqn:Hp; [|vm_compute in Hp; discriminate Hp].
  destruct (preprocess_data_length _ _ _ dl (py "ab") Hp) as (ids & Hm & Hl).
  exists dl, ids. auto.
Defined.


(** Once [prep] has returned its loader, mapping a text raises: the
    pair of [create_model], tokenizer first, was unpacked as
    [model, tokeniser], and the length is read off the tokenizer. *)
Lemma prep_map_raises
    (hub : Hub) (dataset : list pystr) (dl : DataLoader)
    (tokeniser model : pyobj) (text : pystr) :
  prep hub dataset = Ok (dl, tokeniser, model) ->
  dl_map dl text
  = Raise (AttributeError (py "GPT2Tokenizer") (py "transformer")).
Proof.
  unfold prep.
  destruct (create_model hub (py "gpt2")) as [[a b]|] eqn:Hc; [|discriminate].
  apply create_model_ok in Hc
    as (tok0 & model0 & wte0 & dim & cls & attrs & _ & _ & _ & _ & _ & -> & _).
  cbn [mbind result_bind]. intros [= <- _ _]. reflexivity.
Qed.

Lemma prep_texts hub dataset dl tokeniser model :
  prep hub dataset = Ok (dl, tokeniser, model) -> dl_texts dl = dataset.
Proof.
  unfold prep. destruct (create_model hub (py "gpt2")) as [[a b]|];
    [|discriminate].
  cbn [mbind result_bind]. intros [= <- _ _]. reflexivity.
Qed.

(** C9.  The claim asks that the lightweight pipeline tokenize every
    example to the position-embedding count of the model.  [prep] unpacks
    the pair of [create_model], tokenizer first, as [model, tokeniser]: the
    length is read off the tokenizer, which has no [transformer].  Whatever
    the registry holds, building the pipeline and drawing from a dataset
    that is not empty raises; no example is tokenized.  The exception is
    that of [create_model] when the factory itself raises, and the
    [AttributeError] on [transformer] otherwise. *)
Theorem lightweight_pipeline_raises
    (hub : Hub) (text : pystr) (rest : list pystr) :
  exists e,
    ('(dl, _, _) ← prep hub (text :: rest); iterate dl) = Raise e
    /\ (create_model hub (py "gpt2") = Raise e
        \/ e = AttributeError (py "GPT2Tokenizer") (py "transformer")).
Proof.
  destruct (prep hub (text :: rest)) as [[[dl tokeniser] model]|e] eqn:Hp.
  - exists (AttributeError (py "GPT2Tokenizer") (py "transformer")).
    split; [|right; reflexivity].
    cbn [mbind result_bind]. unfold iterate.
    rewrite (prep_texts _ _ _ _ _ Hp). simpl.
    rewrite (prep_map_raises _ _ _ _ _ text Hp). reflexivity.
  - exists e. split; [reflexivity|]. left.
    unfold prep in Hp.
    destruct (create_model hub (py "gpt2")) as [[a b]|e'];
      [discriminate|]. cbn [mbind result_bind] in Hp. congruence.
Qed.

(** On a model with a language-modelling head the factory raises
    first. *)
Example lightweight_pipeline_lm_head :
  ('(dl, _, _) ← prep lm_head_hub [py "e4 e5"]; iterate dl)
  = Raise (AttributeError (py "GPT2LMHeadModel") (py "wte")).
Proof. vm_compute. reflexivity. Qed.

(** The production pipeline on the small tokenizer: every sequence has
    1024 tokens. *)
Example preprocess_data_tiny :
  (dl ← preprocess_data (fun _ => Ok [py "ab"; py "ba"]) tiny_tokenizer
         (<[py "dataset" := VStr (py "games")]> TrainingConfig_defaults);
   ids ← iterate dl;
   Ok (List.map (fun s => length s) ids))
  = Ok [1024; 1024]%nat.
Proof. vm_compute. reflexivity. Qed.

(* ===================================================================== *)
(** * Further properties *)
(* ===================================================================== *)

(** ** Splitting on one character *)

Lemma split_go_nonempty sep skip cur s : split_go sep skip cur s <> [].
Proof.
  revert skip cur. induction s as [|a s IH]; intros skip cur; simpl.
  - discriminate.
  - destruct skip; [|apply IH].
    destruct (starts_with sep (a :: s)); [discriminate|apply IH].
Qed.

Lemma join_cons sep p ps : ps <> [] -> join sep (p :: ps) = p ++ sep ++ join sep ps.
Proof. destruct ps; [contradiction|reflexivity]. Qed.

(** Joining the pieces with the separator gives the string back. *)
Lemma join_split_go c s cur :
  join [c] (split_go [c] 0 cur s) = rev cur ++ s.
Proof.
  revert cur. induction s as [|a s IH]; intros cur; simpl split_go.
  - simpl. rewrite app_nil_r. reflexivity.
  - rewrite andb_true_r. destruct (N.eqb_spec c a) as [<-|Hne].
    + rewrite join_cons by apply split_go_nonempty. rewrite IH. reflexivity.
    + rewrite IH. simpl. rewrite <- app_assoc. reflexivity.
Qed.

Lemma join_split c s : join [c] (split [c] s) = s.
Proof. apply join_split_go. Qed.

Lemma not_elem_of_rev (c : N) (l : pystr) : c ∉ l -> c ∉ rev l.
Proof.
  intros Hn Hin. apply Hn. apply list_elem_of_In, in_rev, list_elem_of_In.
  exact Hin.
Qed.

(** No piece holds the separator. *)
Lemma split_go_free c s cur :
  c ∉ cur -> Forall (fun p => c ∉ p) (split_go [c] 0 cur s).
Proof.
  revert cur. induction s as [|a s IH]; intros cur Hcur; simpl split_go.
  - constructor; [|constructor]. apply not_elem_of_rev, Hcur.
  - rewrite andb_true_r. destruct (N.eqb_spec c a) as [<-|Hne].
    + constructor.
      * apply not_elem_of_rev, Hcur.
      * apply IH. apply not_elem_of_nil.
    + apply IH. rewrite not_elem_of_cons. split; assumption.
Qed.

Lemma split_free c s : Forall (fun p => c ∉ p) (split [c] s).
Proof. apply split_go_free, not_elem_of_nil. Qed.

(** The first piece is the longest prefix without the separator. *)
Lemma split_hd c s :
  exists rest,
    s = hd [] (split [c] s) ++ rest
    /\ (c ∉ hd [] (split [c] s))
    /\ (rest = [] \/ exists rest', rest = c :: rest').
Proof.
  pose proof (join_split c s) as Hj. pose proof (split_free c s) as Hf.
  destruct (split [c] s) as [|p ps] eqn:Hs.
  { exfalso. revert Hs. apply split_go_nonempty. }
  apply Forall_cons_1 in Hf as [Hp _]. simpl.
  destruct ps as [|q ps].
  - exists []. simpl in Hj. rewrite app_nil_r. auto.
  - exists ([c] ++ join [c] (q :: ps)). rewrite join_cons in Hj by discriminate.
    split; [symmetry; exact Hj|]. split; [exact Hp|]. right. eauto.
Qed.

Lemma join_snoc sep ps p :
  ps <> [] -> join sep (ps ++ [p]) = join sep ps ++ sep ++ p.
Proof.
  induction ps as [|q ps IH]; [contradiction|]. intros _.
  destruct ps as [|r ps].
  - reflexivity.
  - change ((q :: r :: ps) ++ [p]) with (q :: ((r :: ps) ++ [p])).
    rewrite join_cons by (simpl; discriminate).
    rewrite IH by discriminate.
    rewrite (join_cons sep q (r :: ps)) by discriminate.
    rewrite <- !app_assoc. reflexivity.
Qed.

(** The last piece is the longest suffix without the separator. *)
Lemma split_last c s :
  exists front,
    s = front ++ List.last (split [c] s) []
    /\ (c ∉ List.last (split [c] s) [])
    /\ (front = [] \/ exists front', front = front' ++ [c]).
Proof.
  pose proof (join_split c s) as Hj. pose proof (split_free c s) as Hf.
  destruct (split [c] s) as [|p0 ps0] eqn:Hs.
  { exfalso. revert Hs. apply split_go_nonempty. }
  assert (Hne : p0 :: ps0 <> []) by discriminate.
  rewrite (app_removelast_last [] Hne) in Hj, Hf.
  set (l := List.last (p0 :: ps0) []) in *.
  set (ini := removelast (p0 :: ps0)) in *.
  apply Forall_app in Hf as [_ Hl]. apply Forall_cons_1 in Hl as [Hl _].
  destruct ini as [|q ini].
  - exists []. simpl in Hj. auto.
  - rewrite join_snoc in Hj by discriminate.
    exists (join [c] (q :: ini) ++ [c]). rewrite <- app_assoc.
    split; [symmetry; exact Hj|]. split; [exact Hl|]. right. eauto.
Qed.

(** What stands after the last separator is the last piece. *)
Lemma split_last_after c front name :
  c ∉ name -> List.last (split [c] (front ++ c :: name)) [] = name.
Proof.
  intros Hn.
  destruct (split_last c (front ++ c :: name)) as (f & Hs & Hl & Hf).
  set (l := List.last (split [c] (front ++ c :: name)) []) in *.
  clearbody l.
  (* both decompositions cut the string at its last separator *)
  assert (Hrev : rev name ++ c :: rev front = rev l ++ rev f).
  { rewrite <- rev_app_distr, <- Hs, rev_app_distr. simpl.
    rewrite <- app_assoc. reflexivity. }
  assert (Hcn : c ∉ rev name).
  { apply not_elem_of_rev, Hn. }
  assert (Hcl : c ∉ rev l).
  { apply not_elem_of_rev, Hl. }
  assert (Heq : rev name = rev l).
  { clear Hs Hn Hl. revert Hrev Hcn Hcl Hf.
    generalize (rev name) (rev l). clear.
    induction l as [|x l IH]; intros l' Hrev Hcn Hcl Hf.
    - destruct l' as [|y l']; [reflexivity|]. simpl in Hrev.
      injection Hrev as <- _. exfalso. apply Hcl. left.
    - destruct l' as [|y l'].
      + exfalso. simpl in Hrev.
        destruct Hf as [->|[f' ->]]; [discriminate|].
        rewrite rev_app_distr in Hrev. simpl in Hrev.
        injection Hrev as -> _. apply Hcn. left.
      + simpl in Hrev. injection Hrev as -> Hrev. f_equal.
        apply IH; [exact Hrev| | |exact Hf].
        * intros H. apply Hcn. right. exact H.
        * intros H. apply Hcl. right. exact H. }
  rewrite <- (rev_involutive name), Heq, rev_involutive. reflexivity.
Qed.

(** Without a separator the string is the only piece. *)
Lemma split_none c s : c ∉ s -> split [c] s = [s].
Proof.
  intros Hn. pose proof (join_split c s) as Hj.
  pose proof (split_single_length c s) as Hl.
  rewrite count_char_not_elem in Hl by assumption.
  destruct (split [c] s) as [|p [|q ps]]; try discriminate.
  simpl in Hj. congruence.
Qed.

(** ** File names and board text *)

(** X7.  For a path that ends in a file name made of a stem and an
    extension of four characters (the dot and three letters),
    [extract_filename] returns the stem: the directories and the extension
    are gone. *)
Theorem extract_filename_stem (dir stem ext : pystr) :
  SLASH ∉ stem ->
  SLASH ∉ ext ->
  length ext = 4%nat ->
  extract_filename (dir ++ SLASH :: stem ++ ext) = stem.
Proof.
  intros Hs He Hl. unfold extract_filename.
  rewrite split_last_after.
  - unfold slice_to_minus_4. rewrite length_app, Hl, Nat.add_sub.
    apply take_app_length.
  - rewrite not_elem_of_app. split; assumption.
Qed.

Lemma extract_filename_stem_witness :
  extract_filename (py "/a/b/game.pgn") = py "game".
Proof.
  apply (extract_filename_stem (py "/a/b") (py "game") (py ".pgn"));
    [not_in_list|not_in_list|reflexivity].
Defined.

(** X8.  [extract_filename] cuts the path after its last slash (the whole
    path when it has none) and drops the last four characters of what is
    left, whatever they are: the result is four characters shorter than the
    file name, and empty for a file name of four characters or fewer. *)
Theorem extract_filename_drops_four (filepath : pystr) :
  exists front name,
    filepath = front ++ name
    /\ (SLASH ∉ name)
    /\ (front = [] \/ exists front', front = front' ++ [SLASH])
    /\ extract_filename filepath = take (length name - 4) name
    /\ length (extract_filename filepath) = (length name - 4)%nat.
Proof.
  destruct (split_last SLASH filepath) as (front & Hs & Hl & Hf).
  exists front, (List.last (split [SLASH] filepath) []).
  repeat split; try assumption.
  unfold extract_filename, slice_to_minus_4. rewrite length_take. lia.
Qed.

(** A file name without an extension, or with one of two letters, loses
    four characters all the same, and a short one gives the empty
    string. *)
Example extract_filename_makefile :
  extract_filename (py "/a/b/Makefile") = py "Make"
  /\ extract_filename (py "/a/b/train.py") = py "trai"
  /\ extract_filename (py "/a/b/go") = [].
Proof. repeat split; vm_compute; reflexivity. Qed.

(** X9.  [board_to_sequence] returns the part of the position string
    before its first space (all of it when it has none): a prefix of the
    string that holds no space and is followed by a space or by the end. *)
Theorem board_to_sequence_first_field
    (Board : Type) (fen : Board -> pystr) (board : Board) :
  exists rest,
    fen board = board_to_sequence Board fen board ++ rest
    /\ (SPACE ∉ board_to_sequence Board fen board)
    /\ (rest = [] \/ exists rest', rest = SPACE :: rest').
Proof. unfold board_to_sequence. apply split_hd. Qed.

(** The standard starting position gives its piece placement. *)
Example board_to_sequence_start :
  board_to_sequence pystr (fun fen => fen) starting_fen
  = py "rnbqkbnr/pppppppp/8/8/8/8/PPPPPPPP/RNBQKBNR".
Proof. vm_compute. reflexivity. Qed.

(** ** More on the configuration loader *)

Lemma for_each_raise_inv {S A} (body : S -> A -> result S) (P : exn -> Prop) l :
  (forall s a e, body s a = Raise e -> P e) ->
  forall s e, for_each body s l = Raise e -> P e.
Proof.
  intros Hb. induction l as [|a l IH]; intros s e; simpl; [discriminate|].
  destruct (body s a) as [s'|e'] eqn:Ha; simpl.
  - apply IH.
  - intros [= <-]. eapply Hb, Ha.
Qed.

Lemma for_each_app {S A} (body : S -> A -> result S) l1 l2 s :
  for_each body s (l1 ++ l2) = (s' ← for_each body s l1; for_each body s' l2).
Proof.
  revert s. induction l1 as [|a l1 IH]; intros s; simpl; [reflexivity|].
  destruct (body s a); simpl; [apply IH|reflexivity].
Qed.

(** X10.  Whatever the file holds, the only exception of
    [config_from_file] is a [ValueError]: from the unpacking of a line or of
    a [betas] value, or from [int] and [float]. *)
Theorem config_from_file_raises_value_error
    (py_int : pystr -> option Z) (py_float : pystr -> option float)
    (text : pystr) (e : exn) :
  config_from_file py_int py_float text = Raise e ->
  exists w, e = ValueError w.
Proof.
  unfold config_from_file.
  destruct (for_each _ _ _) as [kwargs|e'] eqn:Hf; cbn [mbind result_bind].
  - rewrite TrainingConfig_accepts; [discriminate|].
    intros k Hk. eapply collected_keys; eassumption.
  - intros [= <-].
    eapply (for_each_raise_inv (config_line py_int py_float)
              (fun e => exists w, e = ValueError w)); [|exact Hf].
    intros s a e0. apply config_line_raises.
Qed.

Lemma config_from_file_raises_value_error_witness :
  config_from_file int_decimal float_decimal (py "max_epochs: ten")
  = Raise (ValueError InvalidLiteralForInt)
  /\ exists w, ValueError InvalidLiteralForInt = ValueError w.
Proof.
  assert (H : config_from_file int_decimal float_decimal (py "max_epochs: ten")
              = Raise (ValueError InvalidLiteralForInt))
    by (vm_compute; reflexivity).
  split; [exact H|].
  exact (config_from_file_raises_value_error int_decimal float_decimal _ _ H).
Defined.

(** The lines of a file written line by line. *)
Lemma readlines_go_line cur l rest :
  NL ∉ l ->
  readlines_go cur (l ++ NL :: rest)
  = (rev cur ++ l ++ [NL]) :: readlines_go [] rest.
Proof.
  revert cur. induction l as [|a l IH]; intros cur Hn.
  - reflexivity.
  - apply not_elem_of_cons in Hn as [Hne Hn].
    change (readlines_go cur ((a :: l) ++ NL :: rest))
      with (if (a =? NL)%N
            then rev (a :: cur) :: readlines_go [] (l ++ NL :: rest)
            else readlines_go (a :: cur) (l ++ NL :: rest)).
    destruct (N.eqb_spec a NL) as [->|_]; [contradiction|].
    rewrite IH by assumption. simpl. rewrite <- app_assoc. reflexivity.
Qed.

Lemma readlines_file_of_lines ls :
  Forall (fun l => NL ∉ l) ls ->
  readlines (file_of_lines ls) = List.map (fun l => l ++ [NL]) ls.
Proof.
  unfold readlines, file_of_lines.
  induction 1 as [|l ls Hl _ IH]; [reflexivity|]. simpl.
  rewrite <- app_assoc. simpl. rewrite readlines_go_line by assumption.
  simpl. rewrite IH. reflexivity.
Qed.

Section LoaderLines.
Variable py_int : pystr -> option Z.
Variable py_float : pystr -> option float.

(** What a line stores does not depend on what is stored already. *)
Lemma config_line_shape kwargs line kwargs' :
  config_line py_int py_float kwargs line = Ok kwargs' ->
  ((line_key line ∉ recognised_keys) /\ kwargs' = kwargs
   /\ forall kw, config_line py_int py_float kw line = Ok kw)
  \/ (exists v, kwargs' = <[line_key line := v]> kwargs
      /\ forall kw, config_line py_int py_float kw line
                    = Ok (<[line_key line := v]> kw)).
Proof.
  unfold config_line, line_key.
  destruct (unpack2 (split [COLON] line)) as [[k v]|e0] eqn:Hu; simpl;
    [|discriminate].
  apply unpack2_ok in Hu. rewrite Hu. simpl. unfold key_in.
  destruct (bool_decide (strip k ∈ [_; _; _])) eqn:H1.
  { destruct (int_ py_int _); simpl; [|discriminate].
    intros [= <-]. right. eauto. }
  destruct (bool_decide (strip k ∈ [_; _])) eqn:H2.
  { destruct (float_ py_float _); simpl; [|discriminate].
    intros [= <-]. right. eauto. }
  destruct (bool_decide (strip k = _)) eqn:H3.
  - destruct (unpack2 (split (py ", ") _)) as [[b1 b2]|e1]; simpl;
      [|discriminate].
    destruct (float_ py_float (slice_from_1 _)); simpl; [|discriminate].
    destruct (float_ py_float (slice_to_last _)); simpl; [|discriminate].
    intros [= <-]. right. eauto.
  - intros [= <-]. left. split; [|auto].
    apply bool_decide_eq_false in H1, H2, H3. unfold recognised_keys.
    rewrite !elem_of_cons, elem_of_nil in *. tauto.
Qed.
End LoaderLines.

(** X11.  When a key is given more than once the last line wins: for the
    key of its last line, a file loads the value that this line alone
    would load, whatever the lines before it say. *)
Theorem last_line_wins
    (py_int : pystr -> option Z) (py_float : pystr -> option float)
    (ls : list pystr) (l : pystr) (cfg : pyattrs) :
  Forall (fun x => NL ∉ x) (ls ++ [l]) ->
  config_from_file py_int py_float (file_of_lines (ls ++ [l])) = Ok cfg ->
  exists cfg1,
    config_from_file py_int py_float (file_of_lines [l]) = Ok cfg1
    /\ cfg !! line_key (l ++ [NL]) = cfg1 !! line_key (l ++ [NL]).
Proof.
  intros Hnl Hc.
  assert (Hl : Forall (fun x => NL ∉ x) [l]).
  { apply Forall_app in Hnl as [_ H]. exact H. }
  apply config_from_file_ok in Hc as (kwargs & Hf & ->).
  rewrite readlines_file_of_lines in Hf by assumption.
  rewrite map_app, for_each_app in Hf. simpl in Hf.
  destruct (for_each _ ∅ (List.map _ ls)) as [kw|] eqn:Hkw; [|discriminate].
  cbn [mbind result_bind] in Hf.
  destruct (config_line py_int py_float kw (l ++ [NL])) as [kw'|] eqn:Hline;
    [|discriminate].
  cbn [mbind result_bind] in Hf. injection Hf as <-.
  assert (Hone : forall kw1,
             config_line py_int py_float ∅ (l ++ [NL]) = Ok kw1 ->
             (forall k, is_Some (kw1 !! k) -> k ∈ recognised_keys) ->
             config_from_file py_int py_float (file_of_lines [l])
             = Ok (kw1 ∪ TrainingConfig_defaults)).
  { intros kw1 H1 Hk. unfold config_from_file.
    rewrite readlines_file_of_lines by assumption. simpl. rewrite H1.
    cbn [mbind result_bind]. apply TrainingConfig_accepts, Hk. }
  apply config_line_shape in Hline as [(Hun & -> & Hany)|(v & -> & Hany)].
  - exists (∅ ∪ TrainingConfig_defaults). split.
    + apply Hone; [apply Hany|]. intros k [x Hx]. rewrite lookup_empty in Hx.
      discriminate.
    + assert (Hnone : kw !! line_key (l ++ [NL]) = None).
      { destruct (kw !! line_key (l ++ [NL])) eqn:Hv; [|reflexivity].
        exfalso. apply Hun.
        eapply (collected_keys py_int py_float _ _ Hkw); eauto. }
      rewrite !lookup_union_r by (assumption || apply lookup_empty).
      reflexivity.
  - exists (<[line_key (l ++ [NL]) := v]> ∅ ∪ TrainingConfig_defaults). split.
    + apply Hone; [apply Hany|]. intros k [x Hx].
      destruct (decide (line_key (l ++ [NL]) = k)) as [<-|Hne].
      * destruct (collected_keys py_int py_float [l ++ [NL]]
                    (<[line_key (l ++ [NL]) := v]> ∅)) with (k := line_key (l ++ [NL]))
          as [Hrec _].
        -- simpl. rewrite Hany. reflexivity.
        -- rewrite lookup_insert_eq. eauto.
        -- exact Hrec.
      * rewrite lookup_insert_ne, lookup_empty in Hx by assumption.
        discriminate.
    + rewrite !(lookup_union_l' _ _ _) by (rewrite lookup_insert_eq; eauto).
      rewrite !lookup_insert_eq. reflexivity.
Qed.

Lemma last_line_wins_witness :
  exists cfg1,
    config_from_file int_decimal float_decimal
      (file_of_lines [py "batch_size: 8"]) = Ok cfg1
    /\ (<[py "batch_size" := VInt 8]>
          (<[py "max_epochs" := VInt 3]> TrainingConfig_defaults) : pyattrs)
         !! line_key (py "batch_size: 8" ++ [NL])
       = cfg1 !! line_key (py "batch_size: 8" ++ [NL]).
Proof.
  apply (last_line_wins int_decimal float_decimal
           [py "batch_size: 2"; py "max_epochs: 3"] (py "batch_size: 8")
           (<[py "batch_size" := VInt 8]>
            (<[py "max_epochs" := VInt 3]> TrainingConfig_defaults))).
  - repeat constructor; not_in_list.
  - vm_compute. reflexivity.
Defined.

(** ** More on the parameter count *)

Lemma filter_trainable_nil (parameters : list ParamTensor) :
  filter (fun p => requires_grad p = true) parameters = [] ->
  Forall (fun p => requires_grad p = false) parameters.
Proof.
  induction parameters as [|p ps IH]; [constructor|].
  destruct (requires_grad p) eqn:Hp.
  - rewrite filter_cons_True by assumption. discriminate.
  - rewrite filter_cons_False by congruence. intros H. constructor; auto.
Qed.

(** X12.  [count_parameters] never returns a count other than 0: when it
    returns, no parameter of the model requires gradients. *)
Theorem count_parameters_only_zero (parameters : list ParamTensor) (r : pyobj) :
  count_parameters parameters = Ok r ->
  r = OInt 0 /\ Forall (fun p => requires_grad p = false) parameters.
Proof.
  unfold count_parameters.
  destruct (filter _ parameters) as [|q l] eqn:Hf.
  - simpl. intros [= <-]. split; [reflexivity|]. apply filter_trainable_nil, Hf.
  - simpl. discriminate.
Qed.

Lemma count_parameters_only_zero_witness :
  OInt 0 = OInt 0
  /\ Forall (fun p => requires_grad p = false)
       [ {| shape := [768; 768]; requires_grad := false |} ].
Proof.
  apply (count_parameters_only_zero
           [ {| shape := [768; 768]; requires_grad := false |} ]).
  reflexivity.
Defined.

(** ** More on the training loop *)

Lemma forward_passes_app {M B} (t1 t2 : list (event M B)) :
  forward_passes (t1 ++ t2) = (forward_passes t1 + forward_passes t2)%nat.
Proof. unfold forward_passes. rewrite filter_app, length_app. reflexivity. Qed.

Lemma forward_passes_one {M B} (e : event M B) :
  forward_passes [e] = if is_forward e then 1%nat else 0%nat.
Proof.
  unfold forward_passes. destruct (is_forward e) eqn:He.
  - rewrite filter_cons_True by assumption. reflexivity.
  - rewrite filter_cons_False by congruence. reflexivity.
Qed.

(** A loop whose body, when it returns, has applied [f] and added [k]
    events of the kind counted by [cnt]. *)
Lemma io_for_ok {E S A} (body : S -> A -> io E S) (f : S -> A -> S)
    (cnt : list E -> nat) (k : nat) :
  (forall s a t t' s',
      body s a t = (t', Ok s') -> s' = f s a /\ cnt t' = (cnt t + k)%nat) ->
  forall l s t t' s',
    io_for body s l t = (t', Ok s') ->
    s' = fold_left f l s /\ cnt t' = (cnt t + k * length l)%nat.
Proof.
  intros Hb. induction l as [|a l IH]; intros s t t' s'; simpl.
  - intros [= <- <-]. split; [reflexivity|lia].
  - unfold mbind, io_bind.
    destruct (body s a t) as [t1 [s1|e]] eqn:Ha; [|discriminate].
    destruct (Hb _ _ _ _ _ Ha) as [-> Hc]. intros Hl.
    destruct (IH _ _ _ _ Hl) as [-> Hc']. split; [reflexivity|]. lia.
Qed.

Lemma fold_left_enumerate {S A} (f : S -> A -> S) (l : list A) n s :
  fold_left (fun s (ib : nat * A) => f s ib.2) (zip (seq n (length l)) l) s
  = fold_left f l s.
Proof.
  revert n s. induction l as [|a l IH]; intros n s; [reflexivity|].
  simpl. apply IH.
Qed.

Lemma fold_left_const_iter {S T} (F : S -> S) (l : list T) s :
  fold_left (fun s _ => F s) l s = Nat.iter (length l) F s.
Proof.
  revert s. induction l as [|a l IH]; intros s; [reflexivity|].
  simpl fold_left. rewrite IH. simpl. apply Nat.iter_swap.
Qed.

Section LoopFacts.
Variable Model : Type.
Variable Batch : Type.
Variable optimiser_step : Model -> Batch -> Model.
Variable outcome : list (event Model Batch) -> event Model Batch -> result unit.
Variable format_ : pyval -> pystr.
Variable float_mod_is_zero : Z -> float -> result bool.

(** One batch: one forward pass, and, when the body returns, one optimiser
    step on the model. *)
Lemma train_batch_ok config run_id model ib t t' model' :
  train_batch Model Batch optimiser_step outcome format_ float_mod_is_zero
              config run_id model ib t = (t', Ok model') ->
  model' = optimiser_step model ib.2
  /\ forward_passes t' = (forward_passes t + 1)%nat.
Proof.
  destruct ib as [i batch]. unfold train_batch.
  unfold mbind, io_bind, mret, io_ret, call, lift. simpl.
  destruct (outcome t (Forward i batch)); [|discriminate].
  destruct (outcome _ ZeroGrad); [|discriminate].
  destruct (outcome _ Backward); [|discriminate].
  destruct (outcome _ OptimiserStep); [|discriminate].
  destruct (0 <? i)%nat.
  - destruct (getattr _ config (py "checkpoint_every_n")) as [n|];
      [|discriminate].
    destruct (mod_is_zero _ _ n) as [[|]|]; [| |discriminate].
    + destruct (getattr _ config (py "ckpt_path")) as [p|]; [|discriminate].
      destruct (outcome _ (Save _ _)); [|discriminate].
      destruct (outcome _ (LogArtifact _ _)); [|discriminate].
      intros [= <- <-]. split; [reflexivity|].
      rewrite !forward_passes_app, !forward_passes_one. simpl. lia.
    + intros [= <- <-]. split; [reflexivity|].
      rewrite !forward_passes_app, !forward_passes_one. simpl. lia.
  - intros [= <- <-]. split; [reflexivity|].
    rewrite !forward_passes_app, !forward_passes_one. simpl. lia.
Qed.

(** One epoch. *)
Lemma train_epoch_ok config run_id dataloader model t t' model' :
  io_for (train_batch Model Batch optimiser_step outcome format_
                      float_mod_is_zero config run_id)
         model (enumerate dataloader) t
  = (t', Ok model') ->
  model' = fold_left optimiser_step dataloader model
  /\ forward_passes t' = (forward_passes t + length dataloader)%nat.
Proof.
  intros H.
  apply (io_for_ok _ (fun m (ib : nat * Batch) => optimiser_step m ib.2)
           forward_passes 1) in H.
  - destruct H as [-> Hc]. unfold enumerate in *.
    rewrite fold_left_enumerate. split; [reflexivity|].
    rewrite Hc, length_zip, length_seq. lia.
  - intros s a t0 t0' s'. apply train_batch_ok.
Qed.

(** A run that returns has found the attributes read before the loop, and
    its calls before the loop, none of them a forward pass, have
    returned. *)
Lemma train_ok model dataloader config run_id t' trained :
  train Model Batch optimiser_step outcome format_ float_mod_is_zero
        model dataloader config run_id [] = (t', Ok trained) ->
  exists num_epochs epochs t0,
    config !! py "num_epochs" = Some num_epochs
    /\ py_range num_epochs = Ok epochs
    /\ forward_passes t0 = 0%nat
    /\ io_for (fun model (_ : nat) =>
                 io_for (train_batch Model Batch optimiser_step outcome
                                     format_ float_mod_is_zero config run_id)
                        model (enumerate dataloader))
              model (seq 0 epochs) t0
       = (t', Ok trained).
Proof.
  unfold train, mbind, io_bind, call, lift, getattr.
  destruct (outcome [] (WandbInit _)); [|discriminate].
  destruct (config !! py "log_every_n") as [lf|]; [|discriminate].
  destruct (outcome _ (WandbWatch lf)); [|discriminate].
  destruct (outcome _ ModelTrain); [|discriminate].
  destruct (config !! py "num_epochs") as [ne|]; [|discriminate].
  destruct (py_range ne) as [epochs|] eqn:Hr; [|discriminate].
  intros H. exists ne, epochs. eexists. repeat split; [exact Hr| |exact H].
  reflexivity.
Qed.
End LoopFacts.

(** The run, once the two attributes read before the loop are found, with
    collaborators that raise nothing. *)
Lemma run_train_unfold
    (Model Batch : Type) (optimiser_step : Model -> Batch -> Model)
    (outcome : list (event Model Batch) -> event Model Batch -> result unit)
    (format_ : pyval -> pystr) (float_mod_is_zero : Z -> float -> result bool)
    (model : Model) (train_dataloader : list Batch) (config : pyattrs)
    (run_id : pystr) (log_freq : pyval) (num_epochs : Z) :
  (forall t e, outcome t e = Ok tt) ->
  config !! py "log_every_n" = Some log_freq ->
  config !! py "num_epochs" = Some (VInt num_epochs) ->
  run_train Model Batch optimiser_step outcome format_ float_mod_is_zero
            model train_dataloader config run_id
  = io_for (fun model (_ : nat) =>
              io_for (train_batch Model Batch optimiser_step outcome format_
                                  float_mod_is_zero config run_id)
                     model (enumerate train_dataloader))
           model (seq 0 (Z.to_nat num_epochs))
           [WandbInit (asdict config); WandbWatch log_freq; ModelTrain].
Proof.
  intros Hout Hl Hn. unfold run_train, train, call, getattr, mbind, io_bind.
  rewrite Hout, Hl. unfold lift. rewrite Hout, Hout, Hn. reflexivity.
Qed.

(** X13.  When [train] returns, the model it returns has taken one
    optimiser step per batch of the loader, in order, once per epoch, and
    the run has made [num_epochs] times the number of batches forward
    passes. *)
Theorem train_steps_every_batch
    (Model Batch : Type) (optimiser_step : Model -> Batch -> Model)
    (outcome : list (event Model Batch) -> event Model Batch -> result unit)
    (format_ : pyval -> pystr) (float_mod_is_zero : Z -> float -> result bool)
    (model : Model) (train_dataloader : list Batch) (config : pyattrs)
    (run_id : pystr) (num_epochs : Z) (trained : Model) :
  config !! py "num_epochs" = Some (VInt num_epochs) ->
  (run_train Model Batch optimiser_step outcome format_ float_mod_is_zero
             model train_dataloader config run_id).2 = Ok trained ->
  trained = Nat.iter (Z.to_nat num_epochs)
              (fun m => fold_left optimiser_step train_dataloader m) model
  /\ forward_passes
       (run_train Model Batch optimiser_step outcome format_ float_mod_is_zero
                  model train_dataloader config run_id).1
     = (Z.to_nat num_epochs * length train_dataloader)%nat.
Proof.
  intros Hn Hok. unfold run_train in *.
  destruct (train _ _ _ _ _ _ model train_dataloader config run_id [])
    as [t' r] eqn:Hrun.
  simpl in Hok. subst r. simpl.
  apply train_ok in Hrun as (ne & epochs & t0 & Hne & Hr & Ht0 & Hrun).
  rewrite Hn in Hne. injection Hne as <-. simpl in Hr. injection Hr as <-.
  apply (io_for_ok _ (fun m (_ : nat) => fold_left optimiser_step
                                           train_dataloader m)
           forward_passes (length train_dataloader)) in Hrun.
  - destruct Hrun as [-> Hc]. rewrite fold_left_const_iter, length_seq.
    split; [reflexivity|]. rewrite Hc, length_seq, Ht0. lia.
  - intros s a t1 t1' s'. apply train_epoch_ok.
Qed.

Lemma train_steps_every_batch_witness :
  6%nat = Nat.iter (Z.to_nat 2) (fun m => fold_left (fun m _ => S m) [0; 1; 2]%nat m) 0%nat
  /\ forward_passes (counting_run (loop_config 2 5) [0; 1; 2]%nat).1
     = (Z.to_nat 2 * length [0; 1; 2]%nat)%nat.
Proof.
  apply (train_steps_every_batch nat nat (fun m _ => S m) calls_return format_path
           float_mod_unused 0%nat [0; 1; 2]%nat (loop_config 2 5) (py "r1")
           2 6%nat);
    vm_compute; reflexivity.
Defined.

Lemma emits_for_in {E S A} (Q : E -> Prop) (body : S -> A -> io E S) l :
  (forall s a, a ∈ l -> emits Q (body s a)) ->
  forall s, emits Q (io_for body s l).
Proof.
  induction l as [|a l IH]; intros Hb s; simpl.
  - apply emits_ret.
  - apply emits_bind; [apply Hb; left|]. intros s' _ _. apply IH.
    intros s0 b Hin. apply Hb. right. exact Hin.
Qed.

Lemma saved_files_no_save {M B} (t : list (event M B)) :
  Forall (fun e => is_save e = false) t -> saved_files t = [].
Proof.
  induction 1 as [|e t He _ IH]; [reflexivity|].
  destruct e; simpl in *; try exact IH. discriminate.
Qed.

Lemma enumerate_index {A} (l : list A) i a :
  (i, a) ∈ enumerate l -> (i < length l)%nat.
Proof.
  unfold enumerate. intros Hin. apply elem_of_zip_l in Hin. simpl in Hin.
  apply elem_of_seq in Hin. lia.
Qed.

Section CheckpointFacts.
Variable Model : Type.
Variable Batch : Type.
Variable optimiser_step : Model -> Batch -> Model.
Variable outcome : list (event Model Batch) -> event Model Batch -> result unit.
Variable format_ : pyval -> pystr.
Variable float_mod_is_zero : Z -> float -> result bool.

(** A batch whose index is below the interval writes no file. *)
Lemma train_batch_no_save config run_id model i batch n :
  config !! py "checkpoint_every_n" = Some (VInt n) ->
  Z.of_nat i < n ->
  emits (fun e => is_save e = false)
    (train_batch Model Batch optimiser_step outcome format_ float_mod_is_zero
                 config run_id model (i, batch)).
Proof.
  intros Hn Hi. unfold train_batch.
  repeat (apply emits_bind; [apply emits_call; reflexivity|intros _ _ _]).
  apply emits_bind.
  - destruct (0 <? i)%nat; [|apply emits_ret].
    apply emits_bind; [apply emits_lift|intros; apply emits_lift].
  - intros due t Hdue.
    assert (Hfalse : due = false).
    { revert Hdue. destruct (0 <? i)%nat eqn:Hpos.
      - unfold mbind, io_bind, lift, getattr. rewrite Hn. simpl.
        apply Nat.ltb_lt in Hpos.
        destruct n as [|n|n]; try lia.
        rewrite Z.mod_small by lia.
        destruct (Z.eqb_spec (Z.of_nat i) 0); [lia|]. congruence.
      - simpl. congruence. }
    subst due. apply emits_ret.
Qed.
End CheckpointFacts.

(** X14.  The checkpoint test uses the index of the batch within its
    epoch, which starts again at 0 in every epoch: with an interval that is
    not smaller than the number of batches of the loader, no checkpoint is
    ever written, however many epochs the run has. *)
Theorem no_checkpoint_when_interval_spans_epoch
    (Model Batch : Type) (optimiser_step : Model -> Batch -> Model)
    (outcome : list (event Model Batch) -> event Model Batch -> result unit)
    (format_ : pyval -> pystr) (float_mod_is_zero : Z -> float -> result bool)
    (model : Model) (train_dataloader : list Batch) (config : pyattrs)
    (run_id : pystr) (checkpoint_every_n : Z) :
  config !! py "checkpoint_every_n" = Some (VInt checkpoint_every_n) ->
  Z.of_nat (length train_dataloader) <= checkpoint_every_n ->
  saved_files
    (run_train Model Batch optimiser_step outcome format_ float_mod_is_zero
               model train_dataloader config run_id).1 = [].
Proof.
  intros Hn Hle.
  assert (He : emits (fun e : event Model Batch => is_save e = false)
                 (train Model Batch optimiser_step outcome format_ float_mod_is_zero
                        model train_dataloader config run_id)).
  { unfold train.
    apply emits_bind; [apply emits_call; reflexivity|intros _ _ _].
    apply emits_bind; [apply emits_lift|intros log_freq _ _].
    apply emits_bind; [apply emits_call; reflexivity|intros _ _ _].
    apply emits_bind; [apply emits_call; reflexivity|intros _ _ _].
    apply emits_bind; [apply emits_lift|intros num_epochs _ _].
    apply emits_bind; [apply emits_lift|intros epochs _ _].
    apply emits_for. intros m _. apply emits_for_in. intros m' [i b] Hin.
    apply (train_batch_no_save _ _ _ _ _ _ _ _ _ _ _ checkpoint_every_n Hn).
    apply enumerate_index in Hin. lia. }
  destruct (He []) as (new & Ht & Hnew). unfold run_train. rewrite Ht.
  apply saved_files_no_save, Hnew.
Qed.

Lemma no_checkpoint_when_interval_spans_epoch_witness :
  saved_files (counting_run (loop_config 4 3) [0; 1; 2]%nat).1 = []
  /\ forward_passes (counting_run (loop_config 4 3) [0; 1; 2]%nat).1 = 12%nat.
Proof.
  split; [|vm_compute; reflexivity].
  apply (no_checkpoint_when_interval_spans_epoch nat nat (fun m _ => S m)
           calls_return format_path float_mod_unused 0%nat [0; 1; 2]%nat (loop_config 4 3)
           (py "r1") 3).
  - vm_compute. reflexivity.
  - vm_compute. discriminate.
Defined.

(** X15.  With a checkpoint interval of 0, and collaborators that raise
    nothing, the run stops at its second batch: the test
    [i % checkpoint_every_n] divides by zero once [i] is 1, after two
    forward passes and before any checkpoint. *)
Theorem zero_interval_divides_by_zero
    (Model Batch : Type) (optimiser_step : Model -> Batch -> Model)
    (outcome : list (event Model Batch) -> event Model Batch -> result unit)
    (format_ : pyval -> pystr) (float_mod_is_zero : Z -> float -> result bool)
    (model : Model) (b1 b2 : Batch) (rest : list Batch) (config : pyattrs)
    (run_id : pystr) (log_freq : pyval) (num_epochs : Z) :
  (forall t e, outcome t e = Ok tt) ->
  config !! py "log_every_n" = Some log_freq ->
  config !! py "num_epochs" = Some (VInt num_epochs) ->
  0 < num_epochs ->
  config !! py "checkpoint_every_n" = Some (VInt 0) ->
  let run := run_train Model Batch optimiser_step outcome format_
                       float_mod_is_zero model (b1 :: b2 :: rest) config
                       run_id in
  run.2 = Raise ZeroDivisionError
  /\ forward_passes run.1 = 2%nat
  /\ saved_files run.1 = [].
Proof.
  intros Hout Hl Hn Hpos Hk run. unfold run.
  rewrite (run_train_unfold _ _ _ _ _ _ _ _ _ _ _ _ Hout Hl Hn).
  destruct (Z.to_nat num_epochs) as [|e] eqn:He; [lia|].
  unfold train_batch.
  repeat (unfold mbind, io_bind, lift, mret, io_ret, getattr;
          cbn -[py lookup call];
          rewrite ?(call_returns _ _ _ Hout), ?Hk).
  repeat split; reflexivity.
Qed.

Lemma zero_interval_divides_by_zero_witness :
  (counting_run (loop_config 3 0) [0; 1; 2]%nat).2 = Raise ZeroDivisionError
  /\ forward_passes (counting_run (loop_config 3 0) [0; 1; 2]%nat).1 = 2%nat
  /\ saved_files (counting_run (loop_config 3 0) [0; 1; 2]%nat).1 = [].
Proof.
  apply (zero_interval_divides_by_zero nat nat (fun m _ => S m) calls_return
           format_path float_mod_unused 0%nat 0%nat 1%nat [2%nat]
           (loop_config 3 0) (py "r1") (VInt 1) 3);
    try (vm_compute; reflexivity).
Defined.

(** ** The training setup *)






(** ** More on the tag extractor *)

Lemma first_child_skip name before e after :
  Forall (fun c => Element_tag c <> name) before ->
  Element_tag e = name ->
  first_child name (before ++ e :: after) = Some e.
Proof.
  intros Hb He. induction Hb as [|c before Hc _ IH]; simpl.
  - rewrite bool_decide_eq_true_2 by assumption. reflexivity.
  - rewrite bool_decide_eq_false_2 by assumption. exact IH.
Qed.

(** X21.  When the input parses and the root has children bearing the name
    asked for, [extract_tag] returns the text of the first of them; the
    later ones are not looked at. *)
Theorem extract_tag_first_child
    (fromstring : pystr -> result Element)
    (find_path : Element -> pystr -> option Element)
    (input tag_name : pystr) (root e : Element)
    (before after : list Element) :
  contains tag_name input = true ->
  plain_path tag_name = true ->
  fromstring (py "<root>" ++ input ++ py "</root>") = Ok root ->
  Element_children root = before ++ e :: after ->
  Forall (fun c => Element_tag c <> tag_name) before ->
  Element_tag e = tag_name ->
  extract_tag fromstring find_path input tag_name = Ok (Element_text e).
Proof.
  intros Hc Hp Hr Hch Hb He. unfold extract_tag, Element_find.
  rewrite Hc, Hr. simpl. rewrite Hp, Hch.
  rewrite (first_child_skip _ _ _ _ Hb He). reflexivity.
Qed.

Lemma extract_tag_first_child_witness :
  extract_tag xml_fromstring (fun _ _ => None)
    (py "<side>white</side><move>e4</move><move>e5</move>") (py "move")
  = Ok (Some (py "e4")).
Proof.
  apply (extract_tag_first_child xml_fromstring (fun _ _ => None)
           (py "<side>white</side><move>e4</move><move>e5</move>") (py "move")
           (Elem (py "root") None None
              [Elem (py "side") (Some (py "white")) None [];
               Elem (py "move") (Some (py "e4")) None [];
               Elem (py "move") (Some (py "e5")) None []])
           (Elem (py "move") (Some (py "e4")) None [])
           [Elem (py "side") (Some (py "white")) None []]
           [Elem (py "move") (Some (py "e5")) None []]).
  - vm_compute. reflexivity.
  - vm_compute. reflexivity.
  - vm_compute. reflexivity.
  - reflexivity.
  - constructor; [|constructor]. vm_compute. discriminate.
  - reflexivity.
Defined.
